(** * Invoice creation: serial lookup cache, line aggregation, SAP submission

    A shallow embedding of [modules/invoice_creation/routes.py]: the
    handlers [create], [lookup_serial] and [create_invoice], the local
    tables they read and write, and the SAP Service Layer seen as an
    oracle whose calls are recorded in a trace. *)

From Stdlib Require Import List String Ascii ZArith Bool Lia Permutation.
From Stdlib Require Import Floats.SpecFloat Numbers.DecimalString.
Import ListNotations.
Local Open Scope string_scope.
Local Open Scope list_scope.

Set Warnings "-register-all".

(** ** Python values used by the handlers *)

Module Py.

(** [str.isspace] on the ASCII range: TAB..CR, FS..US and SPACE. *)
Definition isspace (c : ascii) : bool :=
  let n := nat_of_ascii c in
  (Nat.leb 9 n && Nat.leb n 13) || (Nat.leb 28 n && Nat.leb n 32).

Fixpoint lstrip (s : string) : string :=
  match s with
  | String c rest => if isspace c then lstrip rest else s
  | EmptyString => EmptyString
  end.

(** [rstrip] keeps a character when something that is not white space
    follows it, or when it is not white space itself. *)
Fixpoint rstrip (s : string) : string :=
  match s with
  | String c rest =>
      match rstrip rest with
      | EmptyString => if isspace c then EmptyString else String c EmptyString
      | kept => String c kept
      end
  | EmptyString => EmptyString
  end.

(** [s.strip()] *)
Definition strip (s : string) : string := rstrip (lstrip s).

(** Truth value of a [str]: the empty string is falsy. *)
Definition truthy (s : string) : bool :=
  match s with EmptyString => false | String _ _ => true end.

(** [str(n)] for an [int]. *)
Definition str_int (n : Z) : string := NilZero.string_of_int (Z.to_int n).

(** [f"{x}"] for a value that is a [str] or [None]. *)
Definition fmt (x : option string) : string :=
  match x with Some s => s | None => "None" end.

(** [float(n)] for an [int]: the nearest double, [None] standing for
    [OverflowError]. *)
Definition float (n : Z) : option spec_float :=
  match binary_normalize 53 1024 n 0 false with
  | S754_infinity _ => None
  | f => Some f
  end.

(** The literal [1.0]. *)
Definition one : spec_float := S754_finite false 4503599627370496 (-52).

(** The literal [0.0], which is also [float(0)]. *)
Definition zero : spec_float := S754_zero false.

End Py.

(** JSON values, as [json.loads] and [jsonify] see them. *)
Inductive json : Type :=
| JNull
| JBool (b : bool)
| JInt (n : Z)
| JFloat (f : spec_float)
| JStr (s : string)
| JArr (items : list json)
| JObj (members : list (string * json)).

(** [d.get(k)] on the members of an object. *)
Fixpoint dict_get {A : Type} (k : string) (d : list (string * A)) : option A :=
  match d with
  | [] => None
  | (k', v) :: rest => if String.eqb k k' then Some v else dict_get k rest
  end.

Definition jopt_str (x : option string) : json :=
  match x with Some s => JStr s | None => JNull end.

Definition jopt_int (x : option Z) : json :=
  match x with Some n => JInt n | None => JNull end.

(** Text held by a TEXT column: a plain string, or the result of
    [json.dumps] (with or without [indent=2]) on a value; the
    serialiser itself is not interpreted. *)
Inductive pytext : Type :=
| Text (s : string)
| JsonDumps (v : json)
| JsonDumpsIndent2 (v : json).

(** ** Naive datetimes *)

Record datetime : Type := mk_datetime {
  year : Z; month : Z; day : Z;
  hour : Z; minute : Z; second : Z; microsecond : Z
}.

Module DT.
Local Open Scope Z_scope.

Definition is_leap (y : Z) : bool :=
  (y mod 4 =? 0) && (negb (y mod 100 =? 0) || (y mod 400 =? 0)).

Definition days_before_year (y : Z) : Z :=
  let p := y - 1 in p * 365 + p / 4 - p / 100 + p / 400.

Definition days_in_month (y m : Z) : Z :=
  if (m =? 2) && is_leap y then 29
  else nth (Z.to_nat m) [-1; 31; 28; 31; 30; 31; 30; 31; 31; 30; 31; 30; 31] 0.

Definition days_before_month (y m : Z) : Z :=
  nth (Z.to_nat m) [-1; 0; 31; 59; 90; 120; 151; 181; 212; 243; 273; 304; 334] 0
  + (if (2 <? m) && is_leap y then 1 else 0).

Definition ymd2ord (y m d : Z) : Z :=
  days_before_year y + days_before_month y m + d.

Definition toordinal (t : datetime) : Z := ymd2ord (year t) (month t) (day t).

Definition seconds_of_day (t : datetime) : Z :=
  second t + minute t * 60 + hour t * 3600.

(** [a - b] as a number of microseconds (a [timedelta] is normalised,
    so comparing two of them compares these numbers). *)
Definition sub (a b : datetime) : Z :=
  ((toordinal a - toordinal b) * 86400 + (seconds_of_day a - seconds_of_day b))
  * 1000000 + (microsecond a - microsecond b).

(** [timedelta(hours=1)] in microseconds. *)
Definition one_hour : Z := 3600 * 1000000.

(** [t + timedelta(days=1)]: the same time on the next calendar day;
    [None] is the [OverflowError] past 9999-12-31. *)
Definition add_one_day (t : datetime) : option datetime :=
  if day t <? days_in_month (year t) (month t) then
    Some (mk_datetime (year t) (month t) (day t + 1)
                      (hour t) (minute t) (second t) (microsecond t))
  else if month t <? 12 then
    Some (mk_datetime (year t) (month t + 1) 1
                      (hour t) (minute t) (second t) (microsecond t))
  else if year t <? 9999 then
    Some (mk_datetime (year t + 1) 1 1
                      (hour t) (minute t) (second t) (microsecond t))
  else None.

(** A date of the calendar. *)
Definition valid_date (t : datetime) : Prop :=
  1 <= month t <= 12 /\ 1 <= day t <= days_in_month (year t) (month t).

(** A decimal number left-padded with zeros to [w] digits. *)
Fixpoint zeros (n : nat) : string :=
  match n with O => EmptyString | S k => String "0"%char (zeros k) end.

Definition zpad (w : nat) (n : Z) : string :=
  let s := Py.str_int n in
  (zeros (w - String.length s) ++ s)%string.

(** [t.strftime("%Y-%m-%dT%H:%M:%S.%fZ")] (years of four digits). *)
Definition strftime (t : datetime) : string :=
  (zpad 4 (year t) ++ "-" ++ zpad 2 (month t) ++ "-" ++ zpad 2 (day t) ++ "T"
   ++ zpad 2 (hour t) ++ ":" ++ zpad 2 (minute t) ++ ":" ++ zpad 2 (second t)
   ++ "." ++ zpad 6 (microsecond t) ++ "Z")%string.

End DT.

(** ** Local tables

    One record per ORM class, with the attributes the handlers assign
    or read.  A table is the list of its rows in insertion order;
    [query.filter_by(...).first()] returns the first matching row. *)

Module SerialNumberLookup.
Record row : Type := mk {
  serial_number : option string;
  item_code : option string;
  item_name : option string;
  warehouse_code : option string;
  warehouse_name : option string;
  branch_id : option Z;
  branch_name : option string;
  lookup_status : string;
  sap_response : pytext;
  last_updated : datetime
}.

Definition has_serial (s : string) (r : row) : bool :=
  match serial_number r with
  | Some s' => String.eqb s' s
  | None => false
  end.
End SerialNumberLookup.

(** An [int] or a [float], for the NUMERIC column [total_amount]. *)
Inductive number : Type :=
| NInt (n : Z)
| NFloat (f : spec_float).

Module InvoiceDocument.
Record row : Type := mk {
  id : Z;
  user_id : Z;
  customer_code : string;
  doc_date : option (Z * Z * Z);
  status : string;
  total_amount : option number;
  json_payload : option pytext;
  sap_response : option pytext;
  sap_doc_entry : option Z;
  sap_doc_num : option Z;
  invoice_number : option string
}.
End InvoiceDocument.

Module InvoiceLine.
Record row : Type := mk {
  id : Z;
  invoice_id : Z;
  line_number : nat;
  item_code : option string;
  item_description : option string;
  quantity : nat;
  warehouse_code : option string;
  tax_code : string
}.
End InvoiceLine.

Module InvoiceSerialNumber.
Record row : Type := mk {
  invoice_line_id : Z;
  serial_number : string;
  base_line_number : nat;
  quantity : spec_float
}.
End InvoiceSerialNumber.

Record db : Type := mk_db {
  lookups : list SerialNumberLookup.row;
  documents : list InvoiceDocument.row;
  lines : list InvoiceLine.row;
  serials : list InvoiceSerialNumber.row
}.

(** What the database server decides: whether the UNIQUE / NOT NULL
    constraint of [serial_number_lookups.serial_number] (declared by the
    MySQL migration) is in force, the text of its integrity error, and
    the ids handed out by [flush]. *)
Record dbms : Type := mk_dbms {
  unique_serial : bool;
  integrity_error : string;
  new_invoice_id : Z;
  new_line_id : nat -> Z
}.

(** [SerialNumberLookup.query.filter_by(serial_number=s).first()] *)
Definition first_lookup (s : string) (d : db) : option SerialNumberLookup.row :=
  find (SerialNumberLookup.has_serial s) (lookups d).

(** Writing back the row that [first()] returned: the first row with
    this serial number is replaced, the others stay. *)
Fixpoint update_first (s : string) (r' : SerialNumberLookup.row)
         (t : list SerialNumberLookup.row) : list SerialNumberLookup.row :=
  match t with
  | [] => []
  | r :: rest =>
      if SerialNumberLookup.has_serial s r then r' :: rest
      else r :: update_first s r' rest
  end.

Definition set_lookups (t : list SerialNumberLookup.row) (d : db) : db :=
  mk_db t (documents d) (lines d) (serials d).

(** The serial numbers of a list of rows, [None] for NULL. *)
Definition serial_column (t : list SerialNumberLookup.row) : list (option string) :=
  map SerialNumberLookup.serial_number t.

Definition opt_str_eqb (x y : option string) : bool :=
  match x, y with
  | Some a, Some b => String.eqb a b
  | None, None => true
  | _, _ => false
  end.

Fixpoint has_dup (l : list (option string)) : bool :=
  match l with
  | [] => false
  | x :: rest => existsb (opt_str_eqb x) rest || has_dup rest
  end.

(** [db.session.commit()] with pending new lookup rows: under the
    constraint, a NULL serial number or one that occurs twice is an
    [IntegrityError] ([None]); otherwise the rows are appended. *)
Definition commit_lookups (s : dbms) (pending : list SerialNumberLookup.row)
           (t : list SerialNumberLookup.row) : option (list SerialNumberLookup.row) :=
  let t' := t ++ pending in
  if unique_serial s
     && (existsb (opt_str_eqb None) (serial_column pending) || has_dup (serial_column t'))
  then None
  else Some t'.

(** ** The SAP Service Layer

    The client ([SAPIntegration]) is an oracle: whether the login holds
    and what a POST answers.  An answer's [json()] is seen through the
    keys this module reads. *)

Module SapItem.
(** One record of a query result; [raw] is the object as parsed. *)
Record t : Type := mk {
  raw : json;
  ItemCode : option string;
  itemName : option string;
  WhsCode : option string;
  WhsName : option string;
  BPLid : option Z;
  BPLName : option string
}.
End SapItem.

(** [d.get('DocTotal', 0)]: the key may be absent, null or a float. *)
Inductive doc_total : Type :=
| TotalAbsent
| TotalNull
| TotalFloat (f : spec_float).

Module SapObject.
Record t : Type := mk {
  raw : json;
  value : option (list SapItem.t);
  DocEntry : option Z;
  DocNum : option Z;
  DocTotal : doc_total;
  error : option json
}.
End SapObject.

(** A parsed body that is not an object; only its Python type matters. *)
Inductive non_object : Type :=
| NoneType | PyBool | PyInt | PyFloat | PyStr | PyList.

Definition type_name (t : non_object) : string :=
  match t with
  | NoneType => "NoneType" | PyBool => "bool" | PyInt => "int"
  | PyFloat => "float" | PyStr => "str" | PyList => "list"
  end.

(** [str(e)] of the [AttributeError] of [x.get] on such a value. *)
Definition no_get (t : non_object) : string :=
  "'" ++ type_name t ++ "' object has no attribute 'get'".

Inductive json_result : Type :=
| JsonRaises (e : string)
| JsonObject (o : SapObject.t)
| JsonOther (t : non_object).

Record response : Type := mk_response {
  status_code : Z;
  text : string;
  json_of : json_result
}.

Inductive post_result : Type :=
| Raises (e : string)
| Returns (r : response).

Record SAPIntegration : Type := mk_sap {
  base_url : string;
  ensure_logged_in : bool;
  post : string -> json -> Z -> post_result
}.

(** The calls a handler makes on the client, in order. *)
Inductive sap_call : Type :=
| EnsureLoggedIn
| Post (url : string) (payload : json) (timeout : Z).

Definition sql_query_url (sap : SAPIntegration) : string :=
  base_url sap ++ "/b1s/v1/SQLQueries('Invoise_creation')/List".

Definition invoices_url (sap : SAPIntegration) : string :=
  base_url sap ++ "/b1s/v1/Invoices".

Definition param_list (serial_number : string) : json :=
  JObj [("ParamList", JStr ("serial_number='" ++ serial_number ++ "'"))].

(** A call is a remote serial lookup when it posts to the query URL. *)
Definition is_lookup_call (sap : SAPIntegration) (c : sap_call) : bool :=
  match c with
  | Post url _ _ => String.eqb url (sql_query_url sap)
  | EnsureLoggedIn => false
  end.

Definition is_submission (sap : SAPIntegration) (c : sap_call) : bool :=
  match c with
  | Post url _ _ => String.eqb url (invoices_url sap)
  | EnsureLoggedIn => false
  end.

(** ** Replies *)

Record reply : Type := mk_reply {
  body : json;
  http_status : Z
}.

(** [jsonify(d)] and [jsonify(d), code] *)
Definition jsonify (members : list (string * json)) : reply :=
  mk_reply (JObj members) 200.

Definition jsonify_code (members : list (string * json)) (code : Z) : reply :=
  mk_reply (JObj members) code.

Definition failure (key msg : string) (code : Z) : reply :=
  jsonify_code [("success", JBool false); (key, JStr msg)] code.

(** The outcome of a handler: its reply, the committed database and the
    calls made on the SAP client. *)
Record outcome : Type := mk_outcome {
  out_reply : reply;
  out_db : db;
  out_calls : list sap_call
}.

(** ** [lookup_serial] *)

Record lookup_request : Type := mk_lookup_request {
  req_serial_number : option string
}.

(** The cached row, when [cached_lookup and (utcnow() - last_updated) <
    timedelta(hours=1)] holds. *)
Definition fresh_lookup (now : datetime) (cached : option SerialNumberLookup.row)
  : option SerialNumberLookup.row :=
  match cached with
  | Some c =>
      if (DT.sub now (SerialNumberLookup.last_updated c) <? DT.one_hour)%Z
      then Some c else None
  | None => None
  end.

Definition cached_data (serial_number : string) (c : SerialNumberLookup.row) : json :=
  JObj [("ItemCode", jopt_str (SerialNumberLookup.item_code c));
        ("itemName", jopt_str (SerialNumberLookup.item_name c));
        ("DistNumber", JStr serial_number);
        ("WhsCode", jopt_str (SerialNumberLookup.warehouse_code c));
        ("WhsName", jopt_str (SerialNumberLookup.warehouse_name c));
        ("BPLid", jopt_int (SerialNumberLookup.branch_id c));
        ("BPLName", jopt_str (SerialNumberLookup.branch_name c))].

(** The attributes both cache branches assign from [item_data]. *)
Definition validated_row (serial_number : option string) (item_data : SapItem.t)
           (now : datetime) : SerialNumberLookup.row :=
  SerialNumberLookup.mk
    serial_number
    (SapItem.ItemCode item_data) (SapItem.itemName item_data)
    (SapItem.WhsCode item_data) (SapItem.WhsName item_data)
    (SapItem.BPLid item_data) (SapItem.BPLName item_data)
    "validated" (JsonDumps (SapItem.raw item_data)) now.

(** "Cache the result": the row found earlier is updated in place, or a
    new row is added when there was none. *)
Definition cache_result (serial_number : string) (cached : option SerialNumberLookup.row)
           (item_data : SapItem.t) (now : datetime) (d : db) : db :=
  match cached with
  | Some c =>
      set_lookups
        (update_first serial_number
           (validated_row (SerialNumberLookup.serial_number c) item_data now)
           (lookups d)) d
  | None =>
      set_lookups (lookups d ++ [validated_row (Some serial_number) item_data now]) d
  end.

(** [now] is the clock read by the freshness test, [now'] the clock
    read when the row is written. *)
Definition lookup_serial (sap : SAPIntegration) (now now' : datetime)
           (data : lookup_request) (d : db) : outcome :=
  let serial_number :=
    Py.strip (match req_serial_number data with Some s => s | None => "" end) in
  if negb (Py.truthy serial_number) then
    mk_outcome (failure "message" "Serial number is required" 400) d []
  else
    let cached_lookup := first_lookup serial_number d in
    match fresh_lookup now cached_lookup with
    | Some c =>
        mk_outcome
          (jsonify [("success", JBool true);
                    ("data", cached_data serial_number c);
                    ("cached", JBool true)])
          d []
    | None =>
        if negb (ensure_logged_in sap) then
          mk_outcome (failure "message" "SAP connection failed" 500) d [EnsureLoggedIn]
        else
          let url := sql_query_url sap in
          let payload := param_list serial_number in
          let calls := [EnsureLoggedIn; Post url payload 30] in
          let lookup_error e :=
            mk_outcome (failure "message" ("SAP lookup error: " ++ e) 500) d calls in
          match post sap url payload 30 with
          | Raises e => lookup_error e
          | Returns response =>
              if (status_code response =? 200)%Z then
                match json_of response with
                | JsonRaises e => lookup_error e
                | JsonOther t => lookup_error (no_get t)
                | JsonObject sap_data =>
                    let values :=
                      match SapObject.value sap_data with Some v => v | None => [] end in
                    match values with
                    | item_data :: _ =>
                        mk_outcome
                          (jsonify [("success", JBool true);
                                    ("data", SapItem.raw item_data);
                                    ("cached", JBool false)])
                          (cache_result serial_number cached_lookup item_data now' d)
                          calls
                    | [] =>
                        mk_outcome
                          (failure "message"
                             ("Serial number " ++ serial_number ++ " not found in SAP") 404)
                          d calls
                    end
                end
              else
                mk_outcome
                  (failure "message"
                     ("SAP query failed: " ++ Py.str_int (status_code response)) 500)
                  d calls
          end
    end.

(** ** [create] *)

Module SerialItem.
(** An element of [serial_items]; [raw] is the element as parsed. *)
Record t : Type := mk {
  raw : json;
  serial_number : option string;
  item_code : option string;
  item_name : option string;
  warehouse : option string
}.
End SerialItem.

(** [invoice_date]: absent or empty, rejected by [strptime] with the
    message [e], or the date it parses to. *)
Inductive date_field : Type :=
| NoDate
| BadDate (e : string)
| GoodDate (y m d : Z).

Module CreateRequest.
Record t : Type := mk {
  is_post : bool;
  is_json : bool;
  customer_code : option string;
  invoice_date : date_field;
  serial_items : option (list SerialItem.t)
}.
End CreateRequest.

(** What a page handler returns. *)
Inductive page : Type :=
| Json (r : reply)
| Render (template : string)
| FlashRender (flash : string) (template : string)
| FlashRedirect (flash : string) (endpoint : string).

(** The body of the [for item_data in serial_items] loop. *)
Definition lookup_of_item (item_data : SerialItem.t) (utcnow : datetime)
  : SerialNumberLookup.row :=
  SerialNumberLookup.mk
    (SerialItem.serial_number item_data)
    (SerialItem.item_code item_data)
    (SerialItem.item_name item_data)
    (SerialItem.warehouse item_data)
    None None None
    "validated" (JsonDumps (SerialItem.raw item_data)) utcnow.

(** The rows the loop adds to the session; [clock i] is [utcnow()] as
    read in iteration [i]. *)
Fixpoint pending_lookups (clock : nat -> datetime) (i : nat)
         (serial_items : list SerialItem.t) : list SerialNumberLookup.row :=
  match serial_items with
  | [] => []
  | item_data :: rest =>
      lookup_of_item item_data (clock i) :: pending_lookups clock (S i) rest
  end.

Definition date_of (t : datetime) : Z * Z * Z := (year t, month t, day t).

Definition create (s : dbms) (has_permission : bool) (user_id : Z)
           (now : datetime) (clock : nat -> datetime)
           (request : CreateRequest.t) (d : db) : page * db :=
  if negb has_permission then
    (FlashRedirect "Access denied - Invoice Creation permissions required" "dashboard", d)
  else if CreateRequest.is_post request then
    let failed e :=
      if CreateRequest.is_json request then
        (Json (failure "error" ("Error creating invoice: " ++ e) 500), d)
      else
        (FlashRender ("Error creating invoice: " ++ e) "invoice_creation/create.html", d) in
    if CreateRequest.is_json request then
      match CreateRequest.customer_code request with
      | None | Some EmptyString =>
          (Json (failure "error" "Please select a customer" 400), d)
      | Some customer_code =>
          match CreateRequest.serial_items request with
          | None | Some [] =>
              (Json (failure "error" "Please add at least one serial item" 400), d)
          | Some serial_items =>
              match CreateRequest.invoice_date request with
              | BadDate e => failed e
              | invoice_date =>
                  let doc_date :=
                    match invoice_date with
                    | GoodDate y m dd => (y, m, dd)
                    | _ => date_of now
                    end in
                  let invoice :=
                    InvoiceDocument.mk (new_invoice_id s) user_id customer_code
                      (Some doc_date) "draft" (Some (NFloat Py.zero))
                      None None None None None in
                  match commit_lookups s (pending_lookups clock 0 serial_items)
                                       (lookups d) with
                  | None => failed (integrity_error s)
                  | Some t =>
                      (Json (jsonify [("success", JBool true);
                                      ("message", JStr "Invoice created successfully");
                                      ("invoice_id", JInt (InvoiceDocument.id invoice))]),
                       mk_db t (documents d ++ [invoice]) (lines d) (serials d))
                  end
              end
          end
      end
    else (Render "invoice_creation/create.html", d)
  else (Render "invoice_creation/create.html", d).

(** ** [create_invoice] *)

Module InvoiceRequest.
Record t : Type := mk {
  customer_code : option string;
  serial_numbers : option (list string)
}.
End InvoiceRequest.

Module SerialEntry.
(** An element of an item's ['SerialNumbers'] list. *)
Record t : Type := mk {
  InternalSerialNumber : string;
  BaseLineNumber : nat;
  Quantity : spec_float
}.
End SerialEntry.

Module Item.
(** A value of the [items_data] dictionary. *)
Record t : Type := mk {
  ItemCode : option string;
  ItemDescription : option string;
  WarehouseCode : option string;
  TaxCode : string;
  Quantity : nat;
  SerialNumbers : list SerialEntry.t;
  BPL_IDAssignedToInvoice : option Z;
  BPLName : option string
}.
End Item.

(** [items_data]: a [dict], which keeps its keys in insertion order. *)
Definition items_dict : Type := list (string * Item.t).

(** [f"{cached_lookup.item_code}_{cached_lookup.warehouse_code}"] *)
Definition group_key (cached_lookup : SerialNumberLookup.row) : string :=
  Py.fmt (SerialNumberLookup.item_code cached_lookup) ++ "_"
  ++ Py.fmt (SerialNumberLookup.warehouse_code cached_lookup).

Definition new_item (cached_lookup : SerialNumberLookup.row) : Item.t :=
  Item.mk (SerialNumberLookup.item_code cached_lookup)
          (SerialNumberLookup.item_name cached_lookup)
          (SerialNumberLookup.warehouse_code cached_lookup)
          "CSGST@18" 0 []
          (SerialNumberLookup.branch_id cached_lookup)
          (SerialNumberLookup.branch_name cached_lookup).

(** [items_data[key]['Quantity'] += 1] followed by the [append] to
    [items_data[key]['SerialNumbers']]. *)
Definition count_serial (serial_number : string) (line_number : nat) (it : Item.t)
  : Item.t :=
  Item.mk (Item.ItemCode it) (Item.ItemDescription it) (Item.WarehouseCode it)
          (Item.TaxCode it) (Item.Quantity it + 1)
          (Item.SerialNumbers it
           ++ [SerialEntry.mk serial_number line_number Py.one])
          (Item.BPL_IDAssignedToInvoice it) (Item.BPLName it).

(** In-place change of the value stored under [key]. *)
Fixpoint dict_adjust (key : string) (f : Item.t -> Item.t) (items_data : items_dict)
  : items_dict :=
  match items_data with
  | [] => []
  | (k, it) :: rest =>
      if String.eqb key k then (k, f it) :: rest
      else (k, it) :: dict_adjust key f rest
  end.

(** [key in items_data] *)
Definition dict_mem (key : string) (items_data : items_dict) : bool :=
  match dict_get key items_data with Some _ => true | None => false end.

(** One iteration of the grouping loop, once the row is found. *)
Definition group_step (cached_lookup : SerialNumberLookup.row) (serial_number : string)
           (line_number : nat) (items_data : items_dict) : items_dict :=
  let key := group_key cached_lookup in
  let items_data :=
    if negb (dict_mem key items_data)
    then items_data ++ [(key, new_item cached_lookup)]
    else items_data in
  dict_adjust key (count_serial serial_number line_number) items_data.

(** The loop [for serial_number in serial_numbers]: [inl s] is the
    early return on the first serial number [s] without a row. *)
Fixpoint group_serials (d : db) (line_number : nat) (serial_numbers : list string)
         (items_data : items_dict) : string + items_dict :=
  match serial_numbers with
  | [] => inr items_data
  | serial_number :: rest =>
      match first_lookup serial_number d with
      | None => inl serial_number
      | Some cached_lookup =>
          group_serials d line_number rest
            (group_step cached_lookup serial_number line_number items_data)
      end
  end.

Definition serial_json (e : SerialEntry.t) : json :=
  JObj [("InternalSerialNumber", JStr (SerialEntry.InternalSerialNumber e));
        ("BaseLineNumber", JInt (Z.of_nat (SerialEntry.BaseLineNumber e)));
        ("Quantity", JFloat (SerialEntry.Quantity e))].

Definition document_line (item_data : Item.t) (quantity : spec_float) : json :=
  JObj [("ItemCode", jopt_str (Item.ItemCode item_data));
        ("ItemDescription", jopt_str (Item.ItemDescription item_data));
        ("Quantity", JFloat quantity);
        ("WarehouseCode", jopt_str (Item.WarehouseCode item_data));
        ("TaxCode", JStr (Item.TaxCode item_data));
        ("SerialNumbers", JArr (map serial_json (Item.SerialNumbers item_data)))].

Definition invoice_line (s : dbms) (invoice_id : Z) (line_number : nat)
           (item_data : Item.t) : InvoiceLine.row :=
  InvoiceLine.mk (new_line_id s line_number) invoice_id line_number
                 (Item.ItemCode item_data) (Item.ItemDescription item_data)
                 (Item.Quantity item_data) (Item.WarehouseCode item_data)
                 (Item.TaxCode item_data).

Definition invoice_serial (invoice_line_id : Z) (serial_data : SerialEntry.t)
  : InvoiceSerialNumber.row :=
  InvoiceSerialNumber.mk invoice_line_id
                         (SerialEntry.InternalSerialNumber serial_data)
                         (SerialEntry.BaseLineNumber serial_data)
                         (SerialEntry.Quantity serial_data).

(** What the second loop has built so far. *)
Record built : Type := mk_built {
  DocumentLines : list json;
  new_lines : list InvoiceLine.row;
  new_serials : list InvoiceSerialNumber.row
}.

(** The loop [for key, item_data in items_data.items()]; [inl e] is an
    exception with message [e] ([float] overflowing). *)
Fixpoint add_lines (s : dbms) (invoice_id : Z) (items : items_dict) (line_number : nat)
         (b : built) : string + built :=
  match items with
  | [] => inr b
  | (_, item_data) :: rest =>
      match Py.float (Z.of_nat (Item.Quantity item_data)) with
      | None => inl "int too large to convert to float"
      | Some quantity =>
          let line := invoice_line s invoice_id line_number item_data in
          add_lines s invoice_id rest (S line_number)
            (mk_built
               (DocumentLines b ++ [document_line item_data quantity])
               (new_lines b ++ [line])
               (new_serials b
                ++ map (invoice_serial (InvoiceLine.id line))
                       (Item.SerialNumbers item_data)))
      end
  end.

(** The [sap_invoice] dictionary once the lines are added. *)
Definition sap_invoice_json (current_date due_date : datetime) (customer_code : string)
           (first_item : Item.t) (document_lines : list json) : json :=
  JObj [("DocDate", JStr (DT.strftime current_date));
        ("DocDueDate", JStr (DT.strftime due_date));
        ("CardCode", JStr customer_code);
        ("DocumentLines", JArr document_lines);
        ("BPL_IDAssignedToInvoice", jopt_int (Item.BPL_IDAssignedToInvoice first_item));
        ("BPLName", jopt_str (Item.BPLName first_item))].

(** "Build SAP invoice JSON" and the local lines: [inl e] is an
    exception with message [e]. *)
Definition build_invoice (s : dbms) (invoice_id : Z) (current_date : datetime)
           (customer_code : string) (items_data : items_dict) : string + (json * built) :=
  match DT.add_one_day current_date with
  | None => inl "date value out of range"
  | Some due_date =>
      match items_data with
      | [] => inl "list index out of range"
      | (_, first_item) :: _ =>
          match add_lines s invoice_id items_data 0 (mk_built [] [] []) with
          | inl e => inl e
          | inr b =>
              inr (sap_invoice_json current_date due_date customer_code first_item
                                    (DocumentLines b), b)
          end
      end
  end.

(** [float(invoice.total_amount or 0)]; [None] is an [OverflowError]. *)
Definition float_or_zero (x : option number) : option spec_float :=
  match x with
  | None => Some Py.zero
  | Some (NInt n) => Py.float n
  | Some (NFloat (S754_zero _)) => Some Py.zero
  | Some (NFloat f) => Some f
  end.

(** [error_data.get('error', {}).get('message', {}).get('value', dflt)];
    [None] is the [AttributeError] of a [get] on something that is not
    a dictionary. *)
Definition error_value (error : option json) (dflt : json) : option json :=
  match error with
  | None => Some dflt
  | Some (JObj e) =>
      match dict_get "message" e with
      | None => Some dflt
      | Some (JObj m) =>
          match dict_get "value" m with
          | None => Some dflt
          | Some v => Some v
          end
      | Some _ => None
      end
  | Some _ => None
  end.

(** The message computed in the branch of a status other than 201. *)
Definition error_message (response : response) : json :=
  let dflt :=
    JStr ("SAP invoice creation failed: " ++ Py.str_int (status_code response)) in
  if Py.truthy (text response) then
    match json_of response with
    | JsonObject error_data =>
        match error_value (SapObject.error error_data) dflt with
        | Some v => v
        | None => JStr (text response)
        end
    | JsonRaises _ | JsonOther _ => JStr (text response)
    end
  else dflt.

(** [db.session.commit()] of the invoice with its lines and serials.  The
    ORM classes of these tables are not among the sources, so no constraint
    of theirs is modelled: the commit stores what the session holds. *)
Definition commit_invoice (invoice : InvoiceDocument.row) (b : built) (d : db) : db :=
  mk_db (lookups d) (documents d ++ [invoice])
        (lines d ++ new_lines b) (serials d ++ new_serials b).

Definition with_failure (invoice : InvoiceDocument.row) (sap_response : pytext)
  : InvoiceDocument.row :=
  InvoiceDocument.mk
    (InvoiceDocument.id invoice) (InvoiceDocument.user_id invoice)
    (InvoiceDocument.customer_code invoice) (InvoiceDocument.doc_date invoice)
    "failed" (InvoiceDocument.total_amount invoice)
    (InvoiceDocument.json_payload invoice) (Some sap_response)
    (InvoiceDocument.sap_doc_entry invoice) (InvoiceDocument.sap_doc_num invoice)
    (InvoiceDocument.invoice_number invoice).

(** [sap_response.get('DocTotal', 0)] *)
Definition captured_total (t : doc_total) : option number :=
  match t with
  | TotalAbsent => Some (NInt 0)
  | TotalNull => None
  | TotalFloat f => Some (NFloat f)
  end.

(** [str(sap_response.get('DocNum'))] *)
Definition str_doc_num (n : option Z) : string :=
  match n with Some n => Py.str_int n | None => "None" end.

Definition with_created (invoice : InvoiceDocument.row) (sap_response : SapObject.t)
  : InvoiceDocument.row :=
  InvoiceDocument.mk
    (InvoiceDocument.id invoice) (InvoiceDocument.user_id invoice)
    (InvoiceDocument.customer_code invoice) (InvoiceDocument.doc_date invoice)
    "created"
    (captured_total (SapObject.DocTotal sap_response))
    (InvoiceDocument.json_payload invoice)
    (Some (JsonDumpsIndent2 (SapObject.raw sap_response)))
    (SapObject.DocEntry sap_response) (SapObject.DocNum sap_response)
    (Some (str_doc_num (SapObject.DocNum sap_response))).

(** "Create invoice in SAP": the part of the handler after the payload
    is stored on the invoice. *)
Definition submit (sap : SAPIntegration) (invoice : InvoiceDocument.row)
           (sap_invoice : json) (b : built) (d : db) : outcome :=
  if negb (ensure_logged_in sap) then
    mk_outcome (failure "message" "SAP connection failed" 500) d [EnsureLoggedIn]
  else
    let url := invoices_url sap in
    let calls := [EnsureLoggedIn; Post url sap_invoice 60] in
    let creation_error (invoice : InvoiceDocument.row) e :=
      mk_outcome
        (failure "message" ("SAP invoice creation error: " ++ e) 500)
        (commit_invoice (with_failure invoice (Text e)) b d) calls in
    match post sap url sap_invoice 60 with
    | Raises e => creation_error invoice e
    | Returns response =>
        if (status_code response =? 201)%Z then
          match json_of response with
          | JsonRaises e => creation_error invoice e
          | JsonOther t => creation_error invoice (no_get t)
          | JsonObject sap_response =>
              let invoice := with_created invoice sap_response in
              match float_or_zero (InvoiceDocument.total_amount invoice) with
              | None => creation_error invoice "int too large to convert to float"
              | Some total =>
                  mk_outcome
                    (jsonify
                       [("success", JBool true);
                        ("message",
                         JStr ("Invoice "
                               ++ Py.fmt (InvoiceDocument.invoice_number invoice)
                               ++ " created successfully"));
                        ("invoice_id", JInt (InvoiceDocument.id invoice));
                        ("sap_doc_entry", jopt_int (InvoiceDocument.sap_doc_entry invoice));
                        ("sap_doc_num", jopt_int (InvoiceDocument.sap_doc_num invoice));
                        ("total_amount", JFloat total)])
                    (commit_invoice invoice b d) calls
              end
          end
        else
          mk_outcome
            (jsonify_code [("success", JBool false);
                           ("message", error_message response)] 500)
            (commit_invoice (with_failure invoice (Text (text response))) b d)
            calls
    end.

(** [now] is [datetime.now()] as read when the payload is built. *)
Definition create_invoice (s : dbms) (sap : SAPIntegration) (user_id : Z)
           (now : datetime) (data : InvoiceRequest.t) (d : db) : outcome :=
  let customer_code :=
    Py.strip (match InvoiceRequest.customer_code data with
              | Some c => c | None => "" end) in
  let serial_numbers :=
    match InvoiceRequest.serial_numbers data with Some l => l | None => [] end in
  if negb (Py.truthy customer_code) then
    mk_outcome (failure "message" "Customer code is required" 400) d []
  else
    match serial_numbers with
    | [] =>
        mk_outcome (failure "message" "At least one serial number is required" 400) d []
    | _ :: _ =>
        let invoice :=
          InvoiceDocument.mk (new_invoice_id s) user_id customer_code None "draft"
                             None None None None None None in
        let line_number := 0 in
        match group_serials d line_number serial_numbers [] with
        | inl serial_number =>
            mk_outcome
              (failure "message"
                 ("Serial number " ++ serial_number ++ " not found. Please lookup first.")
                 400)
              d []
        | inr items_data =>
            match build_invoice s (InvoiceDocument.id invoice) now customer_code
                                items_data with
            | inl e => mk_outcome (failure "message" ("Internal error: " ++ e) 500) d []
            | inr (sap_invoice, b) =>
                let invoice :=
                  InvoiceDocument.mk
                    (InvoiceDocument.id invoice) (InvoiceDocument.user_id invoice)
                    (InvoiceDocument.customer_code invoice) None "draft" None
                    (Some (JsonDumpsIndent2 sap_invoice)) None None None None in
                submit sap invoice sap_invoice b d
            end
        end
    end.

(** ** [validate_serial_number] *)

(** The Python type name of a JSON value. *)
Definition py_type_name (v : json) : string :=
  match v with
  | JNull => "NoneType" | JBool _ => "bool" | JInt _ => "int" | JFloat _ => "float"
  | JStr _ => "str" | JArr _ => "list" | JObj _ => "dict"
  end.

(** [item_data.get(key, '')] *)
Definition get_or_empty (key : string) (members : list (string * json)) : json :=
  match dict_get key members with Some v => v | None => JStr "" end.

(** The ['item_data'] of a successful validation. *)
Definition validated_item (item_data : list (string * json)) : json :=
  JObj [("ItemCode", get_or_empty "ItemCode" item_data);
        ("ItemName", get_or_empty "itemName" item_data);
        ("DistNumber", get_or_empty "DistNumber" item_data);
        ("WhsCode", get_or_empty "WhsCode" item_data);
        ("WhsName", get_or_empty "WhsName" item_data);
        ("BPLName", get_or_empty "BPLName" item_data);
        ("BPLid", get_or_empty "BPLid" item_data)].

(** [arg] is [request.args.get('serial_number')]; the handler neither
    reads nor writes the database. *)
Definition validate_serial_number (sap : SAPIntegration) (arg : option string)
  : reply * list sap_call :=
  let serial_number := Py.strip (match arg with Some s => s | None => "" end) in
  if negb (Py.truthy serial_number) then
    (failure "error" "Serial number is required" 400, [])
  else if negb (ensure_logged_in sap) then
    (failure "error" "SAP connection failed" 500, [EnsureLoggedIn])
  else
    let url := sql_query_url sap in
    let payload := param_list serial_number in
    let calls := [EnsureLoggedIn; Post url payload 30] in
    let request_failed e :=
      (failure "error" ("Validation request failed: " ++ e) 500, calls) in
    match post sap url payload 30 with
    | Raises e => request_failed e
    | Returns response =>
        if (status_code response =? 200)%Z then
          match json_of response with
          | JsonRaises e => request_failed e
          | JsonOther t => request_failed (no_get t)
          | JsonObject data =>
              let results :=
                match SapObject.value data with Some v => v | None => [] end in
              match results with
              | item_data :: _ =>
                  match SapItem.raw item_data with
                  | JObj members =>
                      (jsonify [("success", JBool true);
                                ("item_data", validated_item members)],
                       calls)
                  | v =>
                      request_failed
                        ("'" ++ py_type_name v ++ "' object has no attribute 'get'")%string
                  end
              | [] =>
                  (jsonify
                     [("success", JBool false);
                      ("error",
                       JStr "Serial number not found or has no available quantity")],
                   calls)
              end
          end
        else
          (failure "error"
             ("SAP API error: " ++ Py.str_int (status_code response) ++ " - "
              ++ text response) 500,
           calls)
    end.

(** ** [get_business_partners] and [get_customers] *)

(** The client with the GET side of its session. *)
Record SAPSession : Type := mk_session {
  integration : SAPIntegration;
  get : string -> list (string * string) -> Z -> post_result
}.

Inductive session_call : Type :=
| Login
| Get (url : string) (headers : list (string * string)) (timeout : Z).

(** [data.get('value', [])], as the list the reply carries. *)
Definition value_list (data : SapObject.t) : json :=
  JArr (map SapItem.raw (match SapObject.value data with Some v => v | None => [] end)).

Definition business_partners_url (sap : SAPSession) : string :=
  base_url (integration sap) ++ "/b1s/v1/BusinessPartners?$select=CardCode,CardName".

Definition customers_url (sap : SAPSession) : string :=
  base_url (integration sap)
  ++ "/b1s/v1/BusinessPartners?$filter=CardType eq 'cCustomer'&$select=CardCode,CardName&$top=100".

Definition get_business_partners (sap : SAPSession) : reply * list session_call :=
  if negb (ensure_logged_in (integration sap)) then
    (failure "error" "SAP connection failed" 500, [Login])
  else
    let url := business_partners_url sap in
    let headers := [("Prefer", "odata.pagemaxsize=0")] in
    let calls := [Login; Get url headers 30] in
    let request_failed e := (failure "error" ("Request failed: " ++ e) 500, calls) in
    match get sap url headers 30 with
    | Raises e => request_failed e
    | Returns response =>
        if (status_code response =? 200)%Z then
          match json_of response with
          | JsonRaises e => request_failed e
          | JsonOther t => request_failed (no_get t)
          | JsonObject data =>
              (jsonify [("success", JBool true);
                        ("business_partners", value_list data)],
               calls)
          end
        else
          (failure "error" ("SAP API error: " ++ Py.str_int (status_code response)) 500,
           calls)
    end.

Definition get_customers (sap : SAPSession) : reply * list session_call :=
  if negb (ensure_logged_in (integration sap)) then
    (failure "message" "SAP connection failed" 500, [Login])
  else
    let url := customers_url sap in
    let calls := [Login; Get url [] 30] in
    let sap_error e := (failure "message" ("SAP error: " ++ e) 500, calls) in
    match get sap url [] 30 with
    | Raises e => sap_error e
    | Returns response =>
        if (status_code response =? 200)%Z then
          match json_of response with
          | JsonRaises e => sap_error e
          | JsonOther t => sap_error (no_get t)
          | JsonObject data =>
              (jsonify [("success", JBool true); ("customers", value_list data)], calls)
          end
        else
          (failure "message"
             ("Failed to get customers: " ++ Py.str_int (status_code response)) 500,
           calls)
    end.

(** ** [detail] *)

Inductive detail_page : Type :=
| NotFound404
| Denied (p : page)
| Shown (template : string) (invoice : InvoiceDocument.row).

(** [InvoiceDocument.query.get(invoice_id)]: the row of this primary key. *)
Definition get_invoice (invoice_id : Z) (d : db) : option InvoiceDocument.row :=
  find (fun r => Z.eqb (InvoiceDocument.id r) invoice_id) (documents d).

(** [role in ['admin', 'manager']]; the role may be [None]. *)
Definition privileged (role : option string) : bool :=
  match role with
  | Some r => existsb (String.eqb r) ["admin"; "manager"]
  | None => false
  end.

Definition detail (current_user_id : Z) (role : option string) (invoice_id : Z) (d : db)
  : detail_page :=
  match get_invoice invoice_id d with
  | None => NotFound404
  | Some invoice =>
      if negb (Z.eqb (InvoiceDocument.user_id invoice) current_user_id)
         && negb (privileged role)
      then Denied (FlashRedirect "Access denied - You can only view your own invoices"
                                 "invoice_creation.index")
      else Shown "invoice_creation/detail.html" invoice
  end.


(** ** Notions used to state the properties *)


(** Whether the invoice was posted to SAP. *)
Definition submitted (sap : SAPIntegration) (calls : list sap_call) : bool :=
  existsb (is_submission sap) calls.

(** The key under which [create_invoice] files a serial number. *)
Definition serial_key (d : db) (serial_number : string) : option string :=
  option_map group_key (first_lookup serial_number d).

(** The (item, warehouse) pair of the row of a serial number. *)
Definition serial_pair (d : db) (serial_number : string)
  : option (option string * option string) :=
  option_map (fun c => (SerialNumberLookup.item_code c,
                        SerialNumberLookup.warehouse_code c))
             (first_lookup serial_number d).

Definition has_key (d : db) (k : string) (serial_number : string) : bool :=
  match serial_key d serial_number with
  | Some k' => String.eqb k' k
  | None => false
  end.

(** The distinct elements of a list, in order of first occurrence. *)
Fixpoint first_occ (l : list string) : list string :=
  match l with
  | [] => []
  | k :: rest => k :: filter (fun x => negb (String.eqb x k)) (first_occ rest)
  end.

(** The keys of a list of serial numbers, in input order. *)
Definition keys_of (d : db) (serial_numbers : list string) : list string :=
  flat_map (fun s => match serial_key d s with Some k => [k] | None => [] end)
           serial_numbers.

(** The serial numbers of a line group. *)
Definition names (it : Item.t) : list string :=
  map SerialEntry.InternalSerialNumber (Item.SerialNumbers it).

Definition all_names (items_data : items_dict) : list string :=
  flat_map (fun kv => names (snd kv)) items_data.

Definition total_quantity (items_data : items_dict) : nat :=
  list_sum (map (fun kv => Item.Quantity (snd kv)) items_data).

(** The serial rows attached to an invoice line. *)
Definition serials_of_line (line_id : Z) (rows : list InvoiceSerialNumber.row)
  : list InvoiceSerialNumber.row :=
  filter (fun r => Z.eqb (InvoiceSerialNumber.invoice_line_id r) line_id) rows.

(** The base line numbers of a group, and the pairs (index of the
    group, base line number) over all serial entries of the output. *)
Fixpoint indexed_base_lines (i : nat) (items_data : items_dict) : list (nat * nat) :=
  match items_data with
  | [] => []
  | (_, it) :: rest =>
      map (fun e => (i, SerialEntry.BaseLineNumber e)) (Item.SerialNumbers it)
      ++ indexed_base_lines (S i) rest
  end.

(** No two rows of the lookup table carry the same serial number. *)
Definition one_entry_per_serial (d : db) : Prop :=
  has_dup (serial_column (lookups d)) = false.

(** The serial number a [lookup_serial] request asks for, stripped. *)
Definition requested (data : lookup_request) : string :=
  Py.strip (match req_serial_number data with Some s => s | None => "" end).

(** The reply of a cache hit. *)
Definition cached_reply (serial_number : string) (c : SerialNumberLookup.row) : reply :=
  jsonify [("success", JBool true);
           ("data", cached_data serial_number c);
           ("cached", JBool true)].

(** The customer code and the serial numbers a [create_invoice] request
    carries, after the defaults and the [strip]. *)
Definition requested_customer (data : InvoiceRequest.t) : string :=
  Py.strip (match InvoiceRequest.customer_code data with Some c => c | None => "" end).

Definition requested_serials (data : InvoiceRequest.t) : list string :=
  match InvoiceRequest.serial_numbers data with Some l => l | None => [] end.

(** The draft once the payload is stored on it. *)
Definition draft_with_payload (s : dbms) (user_id : Z) (customer_code : string)
           (sap_invoice : json) : InvoiceDocument.row :=
  InvoiceDocument.mk (new_invoice_id s) user_id customer_code None "draft" None
                     (Some (JsonDumpsIndent2 sap_invoice)) None None None None.




(** What the grouping loop maintains once it has processed the serial
    numbers [done], each entry carrying the line number [ln]. *)
Record grouped (d : db) (ln : nat) (done : list string) (items : items_dict) : Prop :=
  mk_grouped {
    g_keys : map fst items = first_occ (keys_of d done);
    g_names : forall k it, In (k, it) items -> names it = filter (has_key d k) done;
    g_quantity : forall k it,
        In (k, it) items -> Item.Quantity it = List.length (Item.SerialNumbers it);
    g_entries : forall k it e,
        In (k, it) items -> In e (Item.SerialNumbers it) ->
        SerialEntry.BaseLineNumber e = ln /\ SerialEntry.Quantity e = Py.one;
    g_first : forall k it,
        In (k, it) items ->
        exists sn c,
          hd_error (names it) = Some sn
          /\ first_lookup sn d = Some c
          /\ k = group_key c
          /\ Item.ItemCode it = SerialNumberLookup.item_code c
          /\ Item.ItemDescription it = SerialNumberLookup.item_name c
          /\ Item.WarehouseCode it = SerialNumberLookup.warehouse_code c
          /\ Item.TaxCode it = "CSGST@18"
          /\ Item.BPL_IDAssignedToInvoice it = SerialNumberLookup.branch_id c
          /\ Item.BPLName it = SerialNumberLookup.branch_name c;
    g_total : total_quantity items = List.length done;
    g_perm : Permutation (all_names items) done
  }.

(** The local rows the second loop adds for the items from position [n]
    on: one line per item, numbered from [n], and the serial rows of each
    line under the id of that line. *)
Fixpoint lines_from (s : dbms) (invoice_id : Z) (n : nat) (items : items_dict)
  : list InvoiceLine.row :=
  match items with
  | [] => []
  | (_, it) :: rest => invoice_line s invoice_id n it :: lines_from s invoice_id (S n) rest
  end.

Fixpoint serials_from (s : dbms) (n : nat) (items : items_dict)
  : list InvoiceSerialNumber.row :=
  match items with
  | [] => []
  | (_, it) :: rest =>
      map (invoice_serial (new_line_id s n)) (Item.SerialNumbers it)
      ++ serials_from s (S n) rest
  end.

(** The primary keys handed out for the lines are pairwise distinct. *)
Definition distinct_line_ids (s : dbms) : Prop :=
  forall i j, new_line_id s i = new_line_id s j -> i = j.

(** The (item, warehouse) pair a line group is billed under. *)
Definition group_pair (kv : string * Item.t) : option string * option string :=
  (Item.ItemCode (snd kv), Item.WarehouseCode (snd kv)).


(** An (item, warehouse) pair, its printed key, and first occurrences of
    pairs. *)
Definition pair_key (p : option string * option string) : string :=
  Py.fmt (fst p) ++ "_" ++ Py.fmt (snd p).

Definition pair_eqb (p q : option string * option string) : bool :=
  opt_str_eqb (fst p) (fst q) && opt_str_eqb (snd p) (snd q).

Fixpoint first_pairs (l : list (option string * option string))
  : list (option string * option string) :=
  match l with
  | [] => []
  | p :: rest => p :: filter (fun x => negb (pair_eqb x p)) (first_pairs rest)
  end.

(** The pairs of a list of serial numbers, in input order. *)
Definition pairs_of (d : db) (serial_numbers : list string)
  : list (option string * option string) :=
  flat_map (fun s => match serial_pair d s with Some p => [p] | None => [] end)
           serial_numbers.

(** No two different pairs of the list print to the same key. *)
Definition keys_faithful (l : list (option string * option string)) : Prop :=
  forall p q, In p l -> In q l -> pair_key p = pair_key q -> p = q.

(** A document line of the payload renders a line group: its quantity is
    [float] of the group's count and its serials are the group's. *)
Definition renders (kv : string * Item.t) (line : json) : Prop :=
  exists quantity,
    Py.float (Z.of_nat (Item.Quantity (snd kv))) = Some quantity
    /\ line = document_line (snd kv) quantity.

(** ** Sample data: the scenario of customer C001 *)

Module Sample.

Definition t_written : datetime := mk_datetime 2024 5 17 10 0 0 0.
Definition t_within : datetime := mk_datetime 2024 5 17 10 59 59 999999.
Definition t_elapsed : datetime := mk_datetime 2024 5 17 11 0 0 0.
Definition t_later : datetime := mk_datetime 2024 5 17 11 0 0 250000.

Definition row (serial item name wh : string) (t : datetime)
  : SerialNumberLookup.row :=
  SerialNumberLookup.mk (Some serial) (Some item) (Some name) (Some wh)
                        (Some "Main") (Some 1%Z) (Some "Head Office")
                        "validated" (Text "{}") t.

Definition row1 := row "SN1" "ITM-A" "Item A" "WH1" t_written.
Definition row2 := row "SN2" "ITM-A" "Item A" "WH1" t_written.
Definition row3 := row "SN3" "ITM-B" "Item B" "WH1" t_written.

Definition store : db := mk_db [row1; row2; row3] [] [] [].
Definition empty_store : db := mk_db [] [] [] [].

Definition server : dbms :=
  mk_dbms true "Duplicate entry for key 'serial_number'" 1 (fun n => Z.of_nat n + 1)%Z.
Definition lax_server : dbms :=
  mk_dbms false "" 1 (fun n => Z.of_nat n + 1)%Z.

Definition item (serial code wh : string) : SapItem.t :=
  SapItem.mk (JObj [("DistNumber", JStr serial); ("ItemCode", JStr code);
                    ("WhsCode", JStr wh)])
             (Some code) None (Some wh) None None None.

Definition document : SapObject.t :=
  SapObject.mk (JObj [("DocEntry", JInt 77); ("DocNum", JInt 1001)])
               None (Some 77%Z) (Some 1001%Z) (TotalFloat Py.one) None.

Definition rejection : SapObject.t :=
  SapObject.mk JNull None None None TotalAbsent
    (Some (JObj [("code", JInt (-10));
                 ("message", JObj [("lang", JStr "en-us");
                                   ("value", JStr "Serial number already allocated")])])).

Definition found (it : SapItem.t) : response :=
  mk_response 200 "{...}"
    (JsonObject (SapObject.mk JNull (Some [it]) None None TotalAbsent None)).

(** A Service Layer that knows every serial number as item ITM-N in
    WH9 and answers the Invoices endpoint with [on_invoice]. *)
Definition service (on_invoice : post_result) : SAPIntegration :=
  mk_sap "https://sap:50000" true
    (fun url payload _ =>
       if String.eqb url "https://sap:50000/b1s/v1/Invoices" then on_invoice
       else Returns (found (item "SN1" "ITM-N" "WH9"))).

Definition accepting : SAPIntegration :=
  service (Returns (mk_response 201 "{...}" (JsonObject document))).

Definition rejecting : SAPIntegration :=
  service (Returns (mk_response 400 "{error}" (JsonObject rejection))).

Definition unreachable : SAPIntegration :=
  service (Raises "Connection timed out").

Definition ask (serial : string) : lookup_request :=
  mk_lookup_request (Some serial).

Definition order : InvoiceRequest.t :=
  InvoiceRequest.mk (Some "C001") (Some ["SN1"; "SN2"; "SN3"]).

Definition today : datetime := mk_datetime 2024 5 17 12 0 0 0.
Definition tomorrow : datetime := mk_datetime 2024 5 18 12 0 0 0.

(** What the scenario evaluates to. *)
Definition groups : items_dict :=
  Eval vm_compute in
    match group_serials store 0 ["SN1"; "SN2"; "SN3"] [] with
    | inr items => items
    | inl _ => []
    end.

Definition payload_and_rows : json * built :=
  Eval vm_compute in
    match build_invoice server 1 today "C001" groups with
    | inr pb => pb
    | inl _ => (JNull, mk_built [] [] [])
    end.

(** Two (item, warehouse) pairs that print to the same key. *)
Definition row_a := row "SN1" "LAP_15" "Laptop 15" "01" t_written.
Definition row_b := row "SN2" "LAP" "Laptop" "15_01" t_written.
Definition clash_store : db := mk_db [row_a; row_b] [] [] [].

(** What the clash evaluates to. *)
Definition clash_groups : items_dict :=
  Eval vm_compute in
    match group_serials clash_store 0 ["SN1"; "SN2"] [] with
    | inr items => items
    | inl _ => []
    end.

(** A [create] request that records SN1 again, as another item. *)
Definition again : CreateRequest.t :=
  CreateRequest.mk true true (Some "C001") NoDate
    (Some [SerialItem.mk JNull (Some "SN1") (Some "ITM-Z") (Some "Item Z") (Some "WH2")]).

End Sample.

(** Whether a reply carries ['success': True]. *)
Definition succeeded (r : reply) : bool :=
  match body r with
  | JObj members =>
      match dict_get "success" members with
      | Some (JBool true) => true
      | _ => false
      end
  | _ => false
  end.

(** What [validate_serial_number] needs from SAP to accept the serial
    number [sn]: the login, and a 200 whose first record is an object. *)
Definition sap_validates (sap : SAPIntegration) (sn : string)
           (item_data : list (string * json)) : Prop :=
  ensure_logged_in sap = true
  /\ exists r data item rest,
      post sap (sql_query_url sap) (param_list sn) 30 = Returns r
      /\ status_code r = 200%Z
      /\ json_of r = JsonObject data
      /\ SapObject.value data = Some (item :: rest)
      /\ SapItem.raw item = JObj item_data.

(** What the two list handlers need from SAP: the login, and a 200 whose
    body is an object. *)
Definition sap_lists (sap : SAPSession) (url : string) (headers : list (string * string))
           (data : SapObject.t) : Prop :=
  ensure_logged_in (integration sap) = true
  /\ exists r,
      get sap url headers 30 = Returns r
      /\ status_code r = 200%Z
      /\ json_of r = JsonObject data.

(** The records SAP answers are JSON objects. *)
Definition records_are_objects (sap : SAPIntegration) (sn : string) : Prop :=
  forall r data item rest,
    post sap (sql_query_url sap) (param_list sn) 30 = Returns r ->
    json_of r = JsonObject data ->
    SapObject.value data = Some (item :: rest) ->
    exists item_data, SapItem.raw item = JObj item_data.


(** ** Sample data for the other handlers *)

Module Demo.

(** A [create] request that records a serial number not yet known. *)
Definition fresh : CreateRequest.t :=
  CreateRequest.mk true true (Some "C001") (GoodDate 2024 5 17)
    (Some [SerialItem.mk JNull (Some "SN8") (Some "ITM-Q") (Some "Item Q") (Some "WH3")]).

Definition clock (_ : nat) : datetime := Sample.t_written.

Definition partner (code name : string) : SapItem.t :=
  SapItem.mk (JObj [("CardCode", JStr code); ("CardName", JStr name)])
             None None None None None None.

Definition partners : list SapItem.t :=
  [partner "C001" "Acme"; partner "C002" "Globex"].

(** A session whose GET answers 200 with two business partners. *)
Definition session : SAPSession :=
  mk_session Sample.accepting
    (fun _ _ _ =>
       Returns (mk_response 200 "{...}"
                  (JsonObject (SapObject.mk JNull (Some partners) None None
                                            TotalAbsent None)))).

(** A session whose GET is refused. *)
Definition refused : SAPSession :=
  mk_session Sample.accepting
    (fun _ _ _ => Returns (mk_response 401 "Unauthorized" (JsonRaises "Expecting value"))).

(** The store once the order of C001 has been accepted by SAP. *)
Definition invoiced : db :=
  out_db (create_invoice Sample.server Sample.accepting 7 Sample.today
                         Sample.order Sample.store).

(** Rows of two branches: SN1 in branch 1, SN4 in branch 2. *)
Definition row4 : SerialNumberLookup.row :=
  SerialNumberLookup.mk (Some "SN4") (Some "ITM-C") (Some "Item C") (Some "WH2")
                        (Some "Second") (Some 2%Z) (Some "Branch Two")
                        "validated" (Text "{}") Sample.t_written.

Definition two_branches : db := mk_db [Sample.row1; row4] [] [] [].

End Demo.


(** * Properties *)

(** ** Python helpers *)

Example strip_spaces : Py.strip "  SN1 	" = "SN1".
Proof. reflexivity. Qed.

Example strip_blank : Py.strip "   " = "".
Proof. reflexivity. Qed.

Example strip_inner : Py.strip " a b  c " = "a b  c".
Proof. reflexivity. Qed.

Example float_of_3 : Py.float 3 = Some (S754_finite false 6755399441055744 (-51)).
Proof. vm_compute. reflexivity. Qed.

Example float_of_1 : Py.float 1 = Some Py.one.
Proof. vm_compute. reflexivity. Qed.

Example float_of_0 : Py.float 0 = Some Py.zero.
Proof. vm_compute. reflexivity. Qed.

Example strftime_sample :
  DT.strftime (mk_datetime 2024 2 29 9 5 0 1234) = "2024-02-29T09:05:00.001234Z".
Proof. vm_compute. reflexivity. Qed.

Example next_day_leap :
  DT.add_one_day (mk_datetime 2024 2 28 9 5 0 0) = Some (mk_datetime 2024 2 29 9 5 0 0).
Proof. reflexivity. Qed.

Example next_day_year :
  DT.add_one_day (mk_datetime 2023 12 31 23 59 59 999999)
  = Some (mk_datetime 2024 1 1 23 59 59 999999).
Proof. reflexivity. Qed.

(** [add_one_day] against the ordinal arithmetic of [timedelta]: the next
    day is one ordinal further, at the same time of day. *)
Lemma leap_step (y : Z) :
  (DT.days_before_year (y + 1)
   = DT.days_before_year y + 365 + (if DT.is_leap y then 1 else 0))%Z.
Proof.
  unfold DT.days_before_year, DT.is_leap. cbv zeta.
  replace (y + 1 - 1)%Z with y by lia.
  destruct (Z.eqb_spec (y mod 4) 0), (Z.eqb_spec (y mod 100) 0),
    (Z.eqb_spec (y mod 400) 0);
    simpl; Z.div_mod_to_equations; lia.
Qed.

Lemma add_one_day_ordinal (t t' : datetime) :
  DT.valid_date t -> DT.add_one_day t = Some t' ->
  (DT.toordinal t' = DT.toordinal t + 1)%Z
  /\ hour t' = hour t /\ minute t' = minute t /\ second t' = second t
  /\ microsecond t' = microsecond t.
Proof.
  destruct t as [y m dd h mi se us].
  unfold DT.valid_date, DT.add_one_day, DT.toordinal, DT.ymd2ord. simpl.
  intros [Hm Hd] H.
  assert (Hcases : (m = 1 \/ m = 2 \/ m = 3 \/ m = 4 \/ m = 5 \/ m = 6 \/ m = 7
                    \/ m = 8 \/ m = 9 \/ m = 10 \/ m = 11 \/ m = 12)%Z) by lia.
  destruct (dd <? DT.days_in_month y m)%Z eqn:E1.
  - injection H as <-. simpl. repeat split; lia.
  - apply Z.ltb_ge in E1.
    destruct (m <? 12)%Z eqn:E2.
    + injection H as <-. simpl. repeat split; auto.
      apply Z.ltb_lt in E2.
      unfold DT.days_in_month, DT.days_before_month in *.
      destruct (DT.is_leap y);
        repeat (destruct Hcases as [->|Hcases]; [simpl in *; lia|]); lia.
    + apply Z.ltb_ge in E2. assert (m = 12)%Z by lia. subst m.
      destruct (y <? 9999)%Z; [|discriminate].
      injection H as <-. simpl. repeat split; auto.
      rewrite leap_step. unfold DT.days_in_month, DT.days_before_month in *.
      simpl in *. destruct (DT.is_leap y); simpl; lia.
Qed.

Lemma add_one_day_sub (t t' : datetime) :
  DT.valid_date t -> DT.add_one_day t = Some t' ->
  DT.sub t' t = (86400 * 1000000)%Z.
Proof.
  intros Hv H. destruct (add_one_day_ordinal t t' Hv H) as [Ho [Hh [Hm [Hs Hu]]]].
  unfold DT.sub, DT.seconds_of_day. rewrite Ho, Hh, Hm, Hs, Hu. lia.
Qed.

Example hour_not_elapsed :
  (DT.sub Sample.t_within Sample.t_written <? DT.one_hour)%Z = true.
Proof. vm_compute. reflexivity. Qed.

Example hour_elapsed :
  (DT.sub Sample.t_elapsed Sample.t_written <? DT.one_hour)%Z = false.
Proof. vm_compute. reflexivity. Qed.

(** ** The lookup table *)

Section LookupTable.

Variable s : string.

Lemma has_serial_eq (r : SerialNumberLookup.row) :
  SerialNumberLookup.has_serial s r = true ->
  SerialNumberLookup.serial_number r = Some s.
Proof.
  unfold SerialNumberLookup.has_serial.
  destruct (SerialNumberLookup.serial_number r) as [s'|]; [|discriminate].
  intros H. apply String.eqb_eq in H. now subst.
Qed.

Lemma first_lookup_serial (d : db) (c : SerialNumberLookup.row) :
  first_lookup s d = Some c -> SerialNumberLookup.serial_number c = Some s.
Proof.
  unfold first_lookup. intros H. apply find_some in H.
  now apply has_serial_eq.
Qed.




(** Updating the row of [s] leaves the column of serial numbers as it
    is: the new row carries the serial number of the old one. *)
Lemma update_first_column (r' : SerialNumberLookup.row) (t : list SerialNumberLookup.row) :
  SerialNumberLookup.serial_number r' = Some s ->
  serial_column (update_first s r' t) = serial_column t.
Proof.
  intros Hr'. induction t as [|r t IH]; simpl; [reflexivity|].
  destruct (SerialNumberLookup.has_serial s r) eqn:E; simpl.
  - apply has_serial_eq in E. now rewrite Hr', E.
  - now rewrite IH.
Qed.

End LookupTable.


(** ** [lookup_serial] *)

Section LookupSerial.

Variables (sap : SAPIntegration) (now now' : datetime).
Variables (data : lookup_request) (d : db).

Hypothesis given : Py.truthy (requested data) = true.

Lemma lookup_serial_hit (c : SerialNumberLookup.row) :
  first_lookup (requested data) d = Some c ->
  (DT.sub now (SerialNumberLookup.last_updated c) < DT.one_hour)%Z ->
  lookup_serial sap now now' data d = mk_outcome (cached_reply (requested data) c) d [].
Proof.
  intros Hc Hfresh. unfold lookup_serial.
  fold (requested data). rewrite given. simpl.
  rewrite Hc. simpl.
  apply Z.ltb_lt in Hfresh. rewrite Hfresh. reflexivity.
Qed.



End LookupSerial.

Lemma query_url_is_lookup (sap : SAPIntegration) (payload : json) (timeout : Z) :
  is_lookup_call sap (Post (sql_query_url sap) payload timeout) = true.
Proof. simpl. apply String.eqb_refl. Qed.



(** C10 — On a cache hit in [lookup_serial] (cached entry fresher than one
    hour) the database is returned as it was: no field of the cached entry
    is modified and nothing is written, [last_updated] included; so a hit
    does not extend the freshness window, and a later request is judged
    against the same timestamp. *)
Theorem lookup_serial_hit_frame :
  forall (sap : SAPIntegration) (now now' : datetime) (data : lookup_request)
         (d : db) (c : SerialNumberLookup.row),
    Py.truthy (requested data) = true ->
    first_lookup (requested data) d = Some c ->
    (DT.sub now (SerialNumberLookup.last_updated c) < DT.one_hour)%Z ->
    let o := lookup_serial sap now now' data d in
    out_db o = d
    /\ out_calls o = []
    /\ first_lookup (requested data) (out_db o) = Some c
    /\ forall later,
        (DT.one_hour <= DT.sub later (SerialNumberLookup.last_updated c))%Z ->
        fresh_lookup later (first_lookup (requested data) (out_db o)) = None.
Proof.
  intros sap now now' data d c Hgiven Hc Hfresh o.
  assert (Ho : o = mk_outcome (cached_reply (requested data) c) d [])
    by (subst o; now apply lookup_serial_hit).
  rewrite Ho. simpl. repeat split; try assumption.
  intros later Hlate. rewrite Hc. simpl.
  apply Z.ltb_ge in Hlate. now rewrite Hlate.
Qed.

Lemma lookup_serial_hit_frame_witness :
  out_db (lookup_serial Sample.unreachable Sample.t_within Sample.t_within
                        (Sample.ask "SN2") Sample.store) = Sample.store
  /\ fresh_lookup Sample.t_elapsed
       (first_lookup "SN2"
          (out_db (lookup_serial Sample.unreachable Sample.t_within Sample.t_within
                                 (Sample.ask "SN2") Sample.store))) = None.
Proof.
  pose proof (lookup_serial_hit_frame Sample.unreachable Sample.t_within Sample.t_within
                (Sample.ask "SN2") Sample.store Sample.row2
                eq_refl eq_refl) as H.
  assert (Hfresh : (DT.sub Sample.t_within
                      (SerialNumberLookup.last_updated Sample.row2) < DT.one_hour)%Z)
    by (vm_compute; reflexivity).
  destruct (H Hfresh) as [Hdb [_ [_ Hlater]]].
  split; [exact Hdb|].
  apply Hlater. vm_compute. discriminate.
Defined.

(** ** [create_invoice]: validation *)




(** ** [create_invoice]: the calls on SAP *)



Section Submit.

Variables (sap : SAPIntegration) (invoice : InvoiceDocument.row).
Variables (sap_invoice : json) (b : built) (d : db).

Lemma submit_calls :
  out_calls (submit sap invoice sap_invoice b d)
  = if ensure_logged_in sap
    then [EnsureLoggedIn; Post (invoices_url sap) sap_invoice 60]
    else [EnsureLoggedIn].
Proof.
  unfold submit. destruct (ensure_logged_in sap); simpl; [|reflexivity].
  destruct (post sap (invoices_url sap) sap_invoice 60) as [e|r]; [reflexivity|].
  destruct (status_code r =? 201)%Z; [|reflexivity].
  destruct (json_of r) as [e|o|t]; try reflexivity.
  destruct (float_or_zero _); reflexivity.
Qed.


Lemma submit_submitted :
  submitted sap (out_calls (submit sap invoice sap_invoice b d))
  = ensure_logged_in sap.
Proof.
  rewrite submit_calls. unfold submitted.
  destruct (ensure_logged_in sap); simpl; [|reflexivity].
  now rewrite String.eqb_refl.
Qed.

End Submit.


Section CreateInvoice.

Variables (s : dbms) (sap : SAPIntegration) (user_id : Z) (now : datetime).
Variables (data : InvoiceRequest.t) (d : db).

(** The handler past its validation, stage by stage. *)
Lemma create_invoice_stages :
  Py.truthy (requested_customer data) = true ->
  requested_serials data <> [] ->
  create_invoice s sap user_id now data d
  = match group_serials d 0 (requested_serials data) [] with
    | inl serial_number =>
        mk_outcome
          (failure "message"
             ("Serial number " ++ serial_number ++ " not found. Please lookup first.")
             400) d []
    | inr items_data =>
        match build_invoice s (new_invoice_id s) now (requested_customer data)
                            items_data with
        | inl e => mk_outcome (failure "message" ("Internal error: " ++ e) 500) d []
        | inr (sap_invoice, b) =>
            submit sap
              (draft_with_payload s user_id (requested_customer data) sap_invoice)
              sap_invoice b d
        end
    end.
Proof.
  intros Hc Hs. unfold create_invoice.
  fold (requested_customer data). fold (requested_serials data).
  rewrite Hc. simpl.
  destruct (requested_serials data) as [|sn rest] eqn:E; [congruence|].
  reflexivity.
Qed.

(** Either the handler stopped before any call, or it went through
    [submit] with some payload. *)
Lemma create_invoice_cases :
  let o := create_invoice s sap user_id now data d in
  (out_calls o = [] /\ out_db o = d)
  \/ exists items_data sap_invoice b,
      Py.truthy (requested_customer data) = true
      /\ group_serials d 0 (requested_serials data) [] = inr items_data
      /\ build_invoice s (new_invoice_id s) now (requested_customer data) items_data
         = inr (sap_invoice, b)
      /\ o = submit sap
               (draft_with_payload s user_id (requested_customer data) sap_invoice)
               sap_invoice b d.
Proof.
  intros o.
  destruct (Py.truthy (requested_customer data)) eqn:Hc.
  - destruct (requested_serials data) as [|sn rest] eqn:Hs.
    + left. subst o. unfold create_invoice.
      fold (requested_customer data). fold (requested_serials data).
      rewrite Hc, Hs. simpl. auto.
    + assert (Hne : requested_serials data <> []) by congruence.
      pose proof (create_invoice_stages Hc Hne) as Hst. fold o in Hst.
      rewrite <- Hs in *.
      destruct (group_serials d 0 (requested_serials data) []) as [x|items] eqn:Eg.
      * left. rewrite Hst. auto.
      * destruct (build_invoice s (new_invoice_id s) now (requested_customer data) items)
          as [e|[p b]] eqn:Eb.
        -- left. rewrite Hst. auto.
        -- right. exists items, p, b. auto.
  - left. subst o. unfold create_invoice.
    fold (requested_customer data). rewrite Hc. simpl. auto.
Qed.

End CreateInvoice.



(** A run that posts the invoice has gone through both loops, and stores
    the rows of the second one. *)
Lemma create_invoice_submits_built (s : dbms) (sap : SAPIntegration) (user_id : Z)
      (now : datetime) (data : InvoiceRequest.t) (d : db) :
  let o := create_invoice s sap user_id now data d in
  submitted sap (out_calls o) = true ->
  exists items_data sap_invoice b,
    group_serials d 0 (requested_serials data) [] = inr items_data
    /\ build_invoice s (new_invoice_id s) now (requested_customer data) items_data
       = inr (sap_invoice, b)
    /\ out_calls o = [EnsureLoggedIn; Post (invoices_url sap) sap_invoice 60]
    /\ lines (out_db o) = lines d ++ new_lines b
    /\ serials (out_db o) = serials d ++ new_serials b
    /\ lookups (out_db o) = lookups d.
Proof.
  intros o Hsub.
  destruct (create_invoice_cases s sap user_id now data d)
    as [[Hc _]|[items [p [b [_ [Hg [Hb Ho]]]]]]]; fold o in Hc || fold o in Ho.
  - rewrite Hc in Hsub. discriminate Hsub.
  - exists items, p, b. split; [exact Hg|]. split; [exact Hb|].
    rewrite Ho in Hsub |- *. rewrite submit_submitted in Hsub.
    rewrite submit_calls, Hsub. split; [reflexivity|].
    unfold submit. rewrite Hsub. simpl.
    destruct (post sap (invoices_url sap) p 60) as [e|r]; [simpl; auto|].
    destruct (status_code r =? 201)%Z; [|simpl; auto].
    destruct (json_of r) as [e|doc|t]; try (simpl; auto).
    destruct (float_or_zero _); simpl; auto.
Qed.

(** ** [create_invoice]: resolution of the serial numbers *)


Example create_invoice_asks_for_lookup :
  out_reply (create_invoice Sample.server Sample.accepting 7 Sample.today
               Sample.order Sample.empty_store)
  = failure "message" "Serial number SN1 not found. Please lookup first." 400.
Proof. reflexivity. Qed.

(** A cached entry two hours old is used as it is, with no refresh. *)
Example create_invoice_uses_stale_entries :
  fresh_lookup Sample.today (first_lookup "SN1" Sample.store) = None
  /\ out_calls (create_invoice Sample.server Sample.accepting 7 Sample.today
                  Sample.order Sample.store)
     = [EnsureLoggedIn;
        Post "https://sap:50000/b1s/v1/Invoices"
             (sap_invoice_json Sample.today Sample.tomorrow "C001"
                (new_item Sample.row1)
                [document_line
                   (Item.mk (Some "ITM-A") (Some "Item A") (Some "WH1") "CSGST@18" 2
                            [SerialEntry.mk "SN1" 0 Py.one; SerialEntry.mk "SN2" 0 Py.one]
                            (Some 1%Z) (Some "Head Office"))
                   (S754_finite false 4503599627370496 (-51));
                 document_line
                   (Item.mk (Some "ITM-B") (Some "Item B") (Some "WH1") "CSGST@18" 1
                            [SerialEntry.mk "SN3" 0 Py.one]
                            (Some 1%Z) (Some "Head Office"))
                   Py.one])
             60].
Proof. split; vm_compute; reflexivity. Qed.



(** ** [create_invoice]: the local record of a submission *)

Example rejection_message :
  error_message (mk_response 400 "{error}" (JsonObject Sample.rejection))
  = JStr "Serial number already allocated".
Proof. reflexivity. Qed.

Example rejection_without_body :
  error_message (mk_response 502 "" (JsonRaises "Expecting value"))
  = JStr "SAP invoice creation failed: 502".
Proof. reflexivity. Qed.

Example rejection_not_json :
  error_message (mk_response 502 "Bad Gateway" (JsonRaises "Expecting value"))
  = JStr "Bad Gateway".
Proof. reflexivity. Qed.



Example rejected_invoice_is_failed :
  let o := create_invoice Sample.server Sample.rejecting 7 Sample.today
             Sample.order Sample.store in
  map InvoiceDocument.status (documents (out_db o)) = ["failed"]
  /\ map InvoiceDocument.sap_response (documents (out_db o)) = [Some (Text "{error}")]
  /\ out_reply o
     = jsonify_code [("success", JBool false);
                     ("message", JStr "Serial number already allocated")] 500.
Proof. vm_compute. auto. Qed.

Example accepted_invoice_is_created :
  let o := create_invoice Sample.server Sample.accepting 7 Sample.today
             Sample.order Sample.store in
  map InvoiceDocument.status (documents (out_db o)) = ["created"]
  /\ map InvoiceDocument.sap_doc_entry (documents (out_db o)) = [Some 77%Z]
  /\ map InvoiceDocument.invoice_number (documents (out_db o)) = [Some "1001"]
  /\ http_status (out_reply o) = 200%Z.
Proof. vm_compute. auto. Qed.

Example unreachable_sap_is_failed :
  let o := create_invoice Sample.server Sample.unreachable 7 Sample.today
             Sample.order Sample.store in
  map InvoiceDocument.status (documents (out_db o)) = ["failed"]
  /\ out_reply o
     = failure "message" "SAP invoice creation error: Connection timed out" 500.
Proof. vm_compute. auto. Qed.

(** ** The [items_data] dictionary *)

Section Dict.

Variables (key : string) (f : Item.t -> Item.t).

Lemma dict_mem_in (items : items_dict) :
  dict_mem key items = true <-> In key (map fst items).
Proof.
  unfold dict_mem. induction items as [|[k v] rest IH]; simpl.
  - split; [discriminate|tauto].
  - destruct (String.eqb key k) eqn:E.
    + apply String.eqb_eq in E. subst. split; auto.
    + apply String.eqb_neq in E. rewrite IH.
      split; [auto|]. intros [H|H]; [congruence|exact H].
Qed.

Lemma dict_mem_not_in (items : items_dict) :
  dict_mem key items = false <-> ~ In key (map fst items).
Proof.
  rewrite <- dict_mem_in. destruct (dict_mem key items); split; congruence.
Qed.

(** [dict_adjust] rewrites the entry of [key], where it stands. *)
Lemma dict_adjust_split (items : items_dict) :
  dict_mem key items = true ->
  exists l1 it l2,
    items = l1 ++ (key, it) :: l2
    /\ ~ In key (map fst l1)
    /\ dict_adjust key f items = l1 ++ (key, f it) :: l2.
Proof.
  induction items as [|[k v] rest IH]; intros H.
  - discriminate H.
  - unfold dict_mem in H. simpl in *. destruct (String.eqb key k) eqn:E.
    + apply String.eqb_eq in E. subst k. exists [], v, rest. simpl. auto.
    + destruct (IH H) as [l1 [it [l2 [-> [Hn Ha]]]]].
      exists ((k, v) :: l1), it, l2. simpl. rewrite Ha.
      apply String.eqb_neq in E. repeat split; auto.
      intros [H'|H']; [congruence|auto].
Qed.

Lemma dict_adjust_new (items : items_dict) (v : Item.t) :
  dict_mem key items = false ->
  dict_adjust key f (items ++ [(key, v)]) = items ++ [(key, f v)].
Proof.
  induction items as [|[k w] rest IH]; intros H; simpl.
  - now rewrite String.eqb_refl.
  - unfold dict_mem in H. simpl in H. destruct (String.eqb key k) eqn:E.
    + discriminate H.
    + now rewrite IH.
Qed.

End Dict.

(** The two shapes of one iteration of the grouping loop. *)
Lemma group_step_shape (c : SerialNumberLookup.row) (sn : string) (ln : nat)
      (items : items_dict) :
  let k := group_key c in
  (dict_mem k items = true
   /\ exists l1 it l2,
       items = l1 ++ (k, it) :: l2
       /\ ~ In k (map fst l1)
       /\ group_step c sn ln items = l1 ++ (k, count_serial sn ln it) :: l2)
  \/ (dict_mem k items = false
      /\ group_step c sn ln items = items ++ [(k, count_serial sn ln (new_item c))]).
Proof.
  intros k. unfold group_step. fold k.
  destruct (dict_mem k items) eqn:E; simpl.
  - left. split; [reflexivity|]. now apply dict_adjust_split.
  - right. split; [reflexivity|]. now apply dict_adjust_new.
Qed.

(** ** First occurrences *)

Lemma first_occ_in (k : string) (l : list string) : In k (first_occ l) <-> In k l.
Proof.
  induction l as [|x rest IH]; simpl; [tauto|].
  rewrite filter_In, IH. split.
  - intros [H|[H _]]; auto.
  - intros [H|H]; [auto|].
    destruct (String.eqb k x) eqn:E.
    + apply String.eqb_eq in E. auto.
    + right. split; [exact H|reflexivity].
Qed.

Lemma first_occ_nodup (l : list string) : NoDup (first_occ l).
Proof.
  induction l as [|x rest IH]; simpl; constructor.
  - rewrite filter_In. intros [_ H]. cbv beta in H. now rewrite String.eqb_refl in H.
  - now apply NoDup_filter.
Qed.

Lemma first_occ_snoc (l : list string) (k : string) :
  first_occ (l ++ [k])
  = if existsb (String.eqb k) l then first_occ l else first_occ l ++ [k].
Proof.
  induction l as [|x rest IH]; simpl; [reflexivity|].
  rewrite IH. destruct (String.eqb k x) eqn:E; simpl.
  - destruct (existsb (String.eqb k) rest); [reflexivity|].
    rewrite filter_app. simpl. rewrite E. simpl. now rewrite app_nil_r.
  - destruct (existsb (String.eqb k) rest); [reflexivity|].
    rewrite filter_app. simpl. now rewrite E.
Qed.

Lemma existsb_eqb_in (k : string) (l : list string) :
  existsb (String.eqb k) l = true <-> In k l.
Proof.
  rewrite existsb_exists. split.
  - intros [x [Hin E]]. apply String.eqb_eq in E. now subst.
  - intros H. exists k. split; [exact H|apply String.eqb_refl].
Qed.

(** ** The grouping loop *)

Section Grouping.

Variables (d : db) (ln : nat).

Lemma keys_of_snoc (done : list string) (sn : string) (c : SerialNumberLookup.row) :
  first_lookup sn d = Some c ->
  keys_of d (done ++ [sn]) = keys_of d done ++ [group_key c].
Proof.
  intros H. unfold keys_of. rewrite flat_map_app. simpl.
  unfold serial_key. rewrite H. reflexivity.
Qed.

Lemma has_key_row (k sn : string) (c : SerialNumberLookup.row) :
  first_lookup sn d = Some c -> has_key d k sn = String.eqb (group_key c) k.
Proof. intros H. unfold has_key, serial_key. now rewrite H. Qed.

Lemma has_key_in_keys (k sn : string) (done : list string) :
  In sn done -> has_key d k sn = true -> In k (keys_of d done).
Proof.
  intros Hin Hk. unfold keys_of. apply in_flat_map. exists sn. split; [exact Hin|].
  unfold has_key in Hk. destruct (serial_key d sn) as [k'|]; [|discriminate].
  apply String.eqb_eq in Hk. subst. now left.
Qed.

Lemma filter_unseen_key (k : string) (done : list string) :
  ~ In k (keys_of d done) -> filter (has_key d k) done = [].
Proof.
  intros Hn. induction done as [|sn rest IH]; simpl; [reflexivity|].
  destruct (has_key d k sn) eqn:E.
  - exfalso. apply Hn. apply has_key_in_keys with sn; [now left|exact E].
  - apply IH. intros H. apply Hn. unfold keys_of in *. simpl.
    apply in_or_app. now right.
Qed.

Lemma filter_snoc (k sn : string) (done : list string) (c : SerialNumberLookup.row) :
  first_lookup sn d = Some c ->
  filter (has_key d k) (done ++ [sn])
  = filter (has_key d k) done ++ (if String.eqb (group_key c) k then [sn] else []).
Proof.
  intros H. rewrite filter_app. simpl. now rewrite (has_key_row k sn c H).
Qed.

Lemma other_keys (k0 : string) (it : Item.t) (l1 l2 : items_dict) :
  NoDup (map fst (l1 ++ (k0, it) :: l2)) ->
  forall k x, In (k, x) l1 \/ In (k, x) l2 -> String.eqb k0 k = false.
Proof.
  intros Hnd k x Hin. rewrite map_app in Hnd. simpl in Hnd.
  apply NoDup_remove_2 in Hnd. apply String.eqb_neq. intros ->.
  apply Hnd. apply in_or_app.
  destruct Hin as [H|H]; [left|right]; apply (in_map fst) in H; exact H.
Qed.

Lemma total_quantity_app (l1 l2 : items_dict) :
  total_quantity (l1 ++ l2) = total_quantity l1 + total_quantity l2.
Proof. unfold total_quantity. now rewrite map_app, list_sum_app. Qed.

Lemma all_names_app (l1 l2 : items_dict) :
  all_names (l1 ++ l2) = all_names l1 ++ all_names l2.
Proof. unfold all_names. apply flat_map_app. Qed.

Lemma names_count (sn : string) (it : Item.t) :
  names (count_serial sn ln it) = names it ++ [sn].
Proof. unfold names. simpl. now rewrite map_app. Qed.

Lemma perm_snoc_middle (a b c : list string) (x : string) :
  Permutation (a ++ (b ++ [x]) ++ c) ((a ++ b ++ c) ++ [x]).
Proof.
  rewrite <- !app_assoc. apply Permutation_app_head.
  apply Permutation_app_head. simpl.
  change (x :: c) with ([x] ++ c). apply Permutation_app_comm.
Qed.

Lemma hd_error_snoc (l : list string) (x y : string) :
  hd_error l = Some y -> hd_error (l ++ [x]) = Some y.
Proof. destruct l; simpl; congruence. Qed.

Lemma grouped_nil : grouped d ln [] [].
Proof.
  constructor; simpl; try reflexivity; intros; contradiction.
Qed.

(** One iteration keeps the invariant. *)
Lemma grouped_step (done : list string) (items : items_dict)
      (sn : string) (c : SerialNumberLookup.row) :
  first_lookup sn d = Some c ->
  grouped d ln done items ->
  grouped d ln (done ++ [sn]) (group_step c sn ln items).
Proof.
  intros Hc [Hkeys Hnames Hqty Hent Hfirst Htot Hperm].
  assert (Hnd : NoDup (map fst items)) by (rewrite Hkeys; apply first_occ_nodup).
  destruct (group_step_shape c sn ln items)
    as [[Hmem [l1 [it [l2 [Hitems [Hl1 Hstep]]]]]]|[Hmem Hstep]];
    rewrite Hstep; clear Hstep.
  - (* the key is known: its entry is counted up *)
    subst items.
    assert (Hseen : In (group_key c) (keys_of d done)).
    { apply first_occ_in. rewrite <- Hkeys. rewrite map_app. simpl.
      apply in_or_app. right. now left. }
    assert (Hother := other_keys _ _ _ _ Hnd).
    constructor.
    + rewrite (keys_of_snoc done sn c Hc), first_occ_snoc.
      apply existsb_eqb_in in Hseen. rewrite Hseen.
      rewrite <- Hkeys, !map_app. reflexivity.
    + intros k x Hin. rewrite (filter_snoc k sn done c Hc).
      apply in_app_or in Hin. destruct Hin as [Hin|[Hin|Hin]].
      * rewrite (Hother k x (or_introl Hin)), app_nil_r.
        apply Hnames. apply in_or_app. now left.
      * injection Hin as <- <-. rewrite String.eqb_refl, names_count.
        f_equal. apply Hnames. apply in_or_app. right. now left.
      * rewrite (Hother k x (or_intror Hin)), app_nil_r.
        apply Hnames. apply in_or_app. right. now right.
    + intros k x Hin.
      apply in_app_or in Hin. destruct Hin as [Hin|[Hin|Hin]].
      * apply (Hqty k). apply in_or_app. now left.
      * injection Hin as <- <-. simpl. rewrite length_app. simpl.
        f_equal. apply (Hqty (group_key c)). apply in_or_app. right. now left.
      * apply (Hqty k). apply in_or_app. right. now right.
    + intros k x e Hin He.
      apply in_app_or in Hin. destruct Hin as [Hin|[Hin|Hin]].
      * apply (Hent k x); [apply in_or_app; now left|exact He].
      * injection Hin as <- <-. simpl in He. apply in_app_or in He.
        destruct He as [He|[<-|[]]]; [|simpl; auto].
        apply (Hent (group_key c) it); [apply in_or_app; right; now left|exact He].
      * apply (Hent k x); [apply in_or_app; right; now right|exact He].
    + intros k x Hin.
      apply in_app_or in Hin. destruct Hin as [Hin|[Hin|Hin]].
      * apply Hfirst. apply in_or_app. now left.
      * injection Hin as <- <-.
        destruct (Hfirst (group_key c) it) as [sn0 [c0 [Hhd Hrest]]];
          [apply in_or_app; right; now left|].
        exists sn0, c0. rewrite names_count. split; [now apply hd_error_snoc|].
        exact Hrest.
      * apply Hfirst. apply in_or_app. right. now right.
    + rewrite total_quantity_app in *. unfold total_quantity in *. simpl in *.
      rewrite length_app. simpl. lia.
    + rewrite all_names_app in *. unfold all_names in *. simpl in *.
      rewrite names_count.
      etransitivity; [apply perm_snoc_middle|].
      apply Permutation_app_tail. exact Hperm.
  - (* a new key: a new entry at the end *)
    assert (Hunseen : ~ In (group_key c) (keys_of d done)).
    { rewrite <- first_occ_in, <- Hkeys. now apply dict_mem_not_in. }
    assert (Hother : forall k x, In (k, x) items -> String.eqb (group_key c) k = false).
    { intros k x Hin. apply String.eqb_neq. intros E.
      apply dict_mem_not_in in Hmem. apply Hmem. rewrite E.
      apply (in_map fst) in Hin. exact Hin. }
    constructor.
    + rewrite (keys_of_snoc done sn c Hc), first_occ_snoc.
      destruct (existsb (String.eqb (group_key c)) (keys_of d done)) eqn:E.
      * apply existsb_eqb_in in E. contradiction.
      * rewrite map_app, Hkeys. reflexivity.
    + intros k x Hin. rewrite (filter_snoc k sn done c Hc).
      apply in_app_or in Hin. destruct Hin as [Hin|[Hin|[]]].
      * rewrite (Hother k x Hin), app_nil_r. now apply Hnames.
      * injection Hin as <- <-. rewrite String.eqb_refl, names_count.
        now rewrite (filter_unseen_key _ _ Hunseen).
    + intros k x Hin.
      apply in_app_or in Hin. destruct Hin as [Hin|[Hin|[]]].
      * now apply (Hqty k).
      * injection Hin as <- <-. reflexivity.
    + intros k x e Hin He.
      apply in_app_or in Hin. destruct Hin as [Hin|[Hin|[]]].
      * now apply (Hent k x).
      * injection Hin as <- <-. simpl in He. destruct He as [<-|[]]. simpl. auto.
    + intros k x Hin.
      apply in_app_or in Hin. destruct Hin as [Hin|[Hin|[]]].
      * now apply Hfirst.
      * injection Hin as <- <-. exists sn, c. simpl. auto 10.
    + rewrite total_quantity_app. unfold total_quantity in *. simpl.
      rewrite length_app. simpl. lia.
    + rewrite all_names_app. unfold all_names at 2. simpl.
      now apply Permutation_app_tail.
Qed.

(** The loop as a whole: from an invariant state to an invariant state. *)
Lemma group_serials_grouped (serial_numbers : list string) :
  forall done items result,
    grouped d ln done items ->
    group_serials d ln serial_numbers items = inr result ->
    grouped d ln (done ++ serial_numbers) result.
Proof.
  induction serial_numbers as [|sn rest IH]; intros done items result Hinv Hrun.
  - simpl in Hrun. injection Hrun as <-. now rewrite app_nil_r.
  - simpl in Hrun. destruct (first_lookup sn d) as [c|] eqn:Hc; [|discriminate].
    change (sn :: rest) with ([sn] ++ rest). rewrite app_assoc.
    apply IH with (group_step c sn ln items); [|exact Hrun].
    now apply grouped_step.
Qed.

Lemma group_serials_inv (serial_numbers : list string) (result : items_dict) :
  group_serials d ln serial_numbers [] = inr result ->
  grouped d ln serial_numbers result.
Proof.
  intros H. apply (group_serials_grouped serial_numbers [] [] result grouped_nil H).
Qed.

End Grouping.

(** ** The second loop: lines and serial rows *)

Section Lines.

Variables (s : dbms) (invoice_id : Z).

Lemma add_lines_rows (items : items_dict) :
  forall n b b',
    add_lines s invoice_id items n b = inr b' ->
    new_lines b' = new_lines b ++ lines_from s invoice_id n items
    /\ new_serials b' = new_serials b ++ serials_from s n items
    /\ List.length (DocumentLines b')
       = List.length (DocumentLines b) + List.length items.
Proof.
  induction items as [|[k it] rest IH]; intros n b b' H; simpl in H.
  - injection H as <-. simpl. rewrite !app_nil_r. auto.
  - destruct (Py.float (Z.of_nat (Item.Quantity it))) as [q|]; [|discriminate].
    apply IH in H. simpl in H. destruct H as [Hl [Hs Hd]].
    rewrite Hl, Hs, Hd, length_app. simpl. rewrite <- !app_assoc. simpl.
    repeat split; auto. lia.
Qed.

Lemma add_lines_documents (items : items_dict) :
  forall n b b',
    add_lines s invoice_id items n b = inr b' ->
    exists docs, DocumentLines b' = DocumentLines b ++ docs
                 /\ Forall2 renders items docs.
Proof.
  induction items as [|[k it] rest IH]; intros n b b' H; simpl in H.
  - injection H as <-. exists []. rewrite app_nil_r. split; [reflexivity|constructor].
  - destruct (Py.float (Z.of_nat (Item.Quantity it))) as [q|] eqn:E; [|discriminate].
    apply IH in H. simpl in H. destruct H as [docs [Hd Hr]].
    exists (document_line it q :: docs). split.
    + rewrite Hd, <- app_assoc. reflexivity.
    + constructor; [|exact Hr]. exists q. simpl. auto.
Qed.

Lemma lines_from_ids (items : items_dict) :
  forall n line,
    In line (lines_from s invoice_id n items) ->
    exists j, n <= j
              /\ InvoiceLine.id line = new_line_id s j
              /\ InvoiceLine.line_number line = j.
Proof.
  induction items as [|[k it] rest IH]; intros n line Hin; simpl in Hin.
  - destruct Hin.
  - destruct Hin as [<-|Hin].
    + exists n. simpl. auto.
    + destruct (IH (S n) line Hin) as [j [Hj Hrest]]. exists j. split; [lia|exact Hrest].
Qed.

Lemma serials_from_ids (items : items_dict) :
  forall n row,
    In row (serials_from s n items) ->
    exists j, n <= j /\ InvoiceSerialNumber.invoice_line_id row = new_line_id s j.
Proof.
  induction items as [|[k it] rest IH]; intros n row Hin; simpl in Hin.
  - destruct Hin.
  - apply in_app_or in Hin. destruct Hin as [Hin|Hin].
    + apply in_map_iff in Hin. destruct Hin as [e [<- _]]. exists n. simpl. auto.
    + destruct (IH (S n) row Hin) as [j [Hj Hrest]]. exists j. split; [lia|exact Hrest].
Qed.


Lemma line_quantities_from (items : items_dict) :
  forall n,
    map InvoiceLine.quantity (lines_from s invoice_id n items)
    = map (fun kv => Item.Quantity (snd kv)) items.
Proof.
  induction items as [|[k it] rest IH]; intros n; simpl; [reflexivity|].
  now rewrite IH.
Qed.

Hypothesis distinct : distinct_line_ids s.

Lemma serials_of_own_line (n : nat) (l : list SerialEntry.t) :
  serials_of_line (new_line_id s n) (map (invoice_serial (new_line_id s n)) l)
  = map (invoice_serial (new_line_id s n)) l.
Proof.
  unfold serials_of_line. induction l as [|e l IH]; simpl; [reflexivity|].
  rewrite Z.eqb_refl. now rewrite IH.
Qed.

Lemma serials_of_other_line (n j : nat) (l : list SerialEntry.t) :
  n <> j ->
  serials_of_line (new_line_id s j) (map (invoice_serial (new_line_id s n)) l) = [].
Proof.
  intros Hne. unfold serials_of_line. induction l as [|e l IH]; simpl; [reflexivity|].
  destruct (Z.eqb_spec (new_line_id s n) (new_line_id s j)) as [E|E].
  - apply distinct in E. contradiction.
  - exact IH.
Qed.

Lemma serials_of_earlier_line (items : items_dict) :
  forall n j, j < n -> serials_of_line (new_line_id s j) (serials_from s n items) = [].
Proof.
  intros n j Hlt. unfold serials_of_line.
  destruct (filter _ _) as [|row rest] eqn:E; [reflexivity|].
  assert (Hin : In row (filter
                          (fun r => Z.eqb (InvoiceSerialNumber.invoice_line_id r)
                                          (new_line_id s j))
                          (serials_from s n items)))
    by (rewrite E; now left).
  apply filter_In in Hin. destruct Hin as [Hin Heq].
  apply serials_from_ids in Hin. destruct Hin as [i [Hi Hid]].
  apply Z.eqb_eq in Heq. rewrite Hid in Heq. apply distinct in Heq. lia.
Qed.

(** Each line counts the serial rows filed under its id. *)
Lemma line_quantity_counts (items : items_dict) :
  (forall k it, In (k, it) items ->
                Item.Quantity it = List.length (Item.SerialNumbers it)) ->
  forall n line,
    In line (lines_from s invoice_id n items) ->
    InvoiceLine.quantity line
    = List.length (serials_of_line (InvoiceLine.id line) (serials_from s n items)).
Proof.
  induction items as [|[k it] rest IH]; intros Hq n line Hin; simpl in Hin.
  - destruct Hin.
  - simpl. unfold serials_of_line in *. rewrite filter_app, length_app.
    destruct Hin as [<-|Hin].
    + simpl.
      pose proof (serials_of_own_line n (Item.SerialNumbers it)) as Hown.
      pose proof (serials_of_earlier_line rest (S n) n (Nat.lt_succ_diag_r n)) as Hnone.
      unfold serials_of_line in Hown, Hnone. rewrite Hown, Hnone, length_map.
      simpl. rewrite Nat.add_0_r. apply (Hq k). now left.
    + destruct (lines_from_ids rest (S n) line Hin) as [j [Hj [Hid _]]].
      rewrite Hid.
      pose proof (serials_of_other_line n j (Item.SerialNumbers it)) as Hnone.
      unfold serials_of_line in Hnone. rewrite Hnone by lia. simpl.
      rewrite <- Hid. apply IH; [|exact Hin].
      intros k' it' Hin'. apply (Hq k'). now right.
Qed.

End Lines.

Lemma build_invoice_rows (s : dbms) (invoice_id : Z) (now : datetime)
      (customer_code : string) (items : items_dict) (sap_invoice : json) (b : built) :
  build_invoice s invoice_id now customer_code items = inr (sap_invoice, b) ->
  new_lines b = lines_from s invoice_id 0 items
  /\ new_serials b = serials_from s 0 items
  /\ Forall2 renders items (DocumentLines b).
Proof.
  unfold build_invoice. intros H.
  destruct (DT.add_one_day now) as [due|]; [|discriminate].
  destruct items as [|[k first] rest]; [discriminate|].
  destruct (add_lines s invoice_id ((k, first) :: rest) 0 (mk_built [] [] []))
    as [e|b'] eqn:E; [discriminate|].
  injection H as _ <-.
  destruct (add_lines_documents s invoice_id _ _ _ _ E) as [docs [Hd Hr]].
  apply add_lines_rows in E. simpl in E, Hd. destruct E as [Hl [Hs _]].
  rewrite Hd. auto.
Qed.

(** ** Aggregation partitions the input *)

Lemma value_of_key (l : items_dict) (k : string) (a b : Item.t) :
  NoDup (map fst l) -> In (k, a) l -> In (k, b) l -> a = b.
Proof.
  induction l as [|[k' v] rest IH]; intros Hnd Ha Hb; [destruct Ha|].
  simpl in Hnd. inversion Hnd as [|? ? Hnotin Hnd']; subst.
  destruct Ha as [Ha|Ha], Hb as [Hb|Hb].
  - congruence.
  - injection Ha as -> ->. exfalso. apply Hnotin. apply (in_map fst) in Hb. exact Hb.
  - injection Hb as -> ->. exfalso. apply Hnotin. apply (in_map fst) in Ha. exact Ha.
  - now apply IH.
Qed.

Lemma in_all_names (items : items_dict) (sn : string) :
  In sn (all_names items) <-> exists k it, In (k, it) items /\ In sn (names it).
Proof.
  unfold all_names. rewrite in_flat_map. split.
  - intros [[k it] [Hin Hn]]. exists k, it. auto.
  - intros [k [it [Hin Hn]]]. exists (k, it). auto.
Qed.

Lemma grouped_member_key (d : db) (ln : nat) (done : list string) (items : items_dict)
      (k : string) (it : Item.t) (sn : string) :
  grouped d ln done items -> In (k, it) items -> In sn (names it) ->
  serial_key d sn = Some k.
Proof.
  intros G Hin Hsn. rewrite (g_names _ _ _ _ G k it Hin) in Hsn.
  apply filter_In in Hsn. destruct Hsn as [_ Hk]. unfold has_key in Hk.
  destruct (serial_key d sn) as [k'|]; [|discriminate].
  apply String.eqb_eq in Hk. now subst.
Qed.

(** C2 — For every non-empty list of serial numbers that all resolve, the
    aggregation of [create_invoice] partitions the input: the quantities of
    the line groups sum to the number of input serials, the serials of the
    groups taken together are the input serials (each occurrence once),
    every input serial lies in exactly one group, and each group's quantity
    is the number of its serials (at least one).  Each document line of the
    payload carries the quantity and the serials of its group, and each
    local invoice line carries that quantity, which is the number of serial
    rows attached to the line. *)
Theorem aggregation_partitions :
  forall (s : dbms) (d : db) (invoice_id : Z) (now : datetime) (customer_code : string)
         (serial_numbers : list string) (items : items_dict)
         (sap_invoice : json) (b : built),
    serial_numbers <> [] ->
    group_serials d 0 serial_numbers [] = inr items ->
    build_invoice s invoice_id now customer_code items = inr (sap_invoice, b) ->
    distinct_line_ids s ->
    total_quantity items = List.length serial_numbers
    /\ Permutation (all_names items) serial_numbers
    /\ (forall sn,
           In sn serial_numbers ->
           exists k it,
             In (k, it) items /\ In sn (names it)
             /\ forall k' it', In (k', it') items -> In sn (names it') ->
                               k' = k /\ it' = it)
    /\ (forall k it,
           In (k, it) items ->
           Item.Quantity it = List.length (names it) /\ 1 <= Item.Quantity it)
    /\ map InvoiceLine.quantity (new_lines b)
       = map (fun kv => Item.Quantity (snd kv)) items
    /\ Forall2 renders items (DocumentLines b)
    /\ (forall line,
           In line (new_lines b) ->
           1 <= InvoiceLine.quantity line
           /\ InvoiceLine.quantity line
              = List.length (serials_of_line (InvoiceLine.id line) (new_serials b))).
Proof.
  intros s d invoice_id now customer_code serial_numbers items sap_invoice b
         Hne Hgroup Hbuild Hdistinct.
  pose proof (group_serials_inv d 0 serial_numbers items Hgroup) as G.
  destruct (build_invoice_rows s invoice_id now customer_code items sap_invoice b Hbuild)
    as [Hlines [Hserials Hdocs]].
  assert (Hnd : NoDup (map fst items))
    by (rewrite (g_keys _ _ _ _ G); apply first_occ_nodup).
  assert (Hqty : forall k it, In (k, it) items ->
                              Item.Quantity it = List.length (names it)
                              /\ 1 <= Item.Quantity it).
  { intros k it Hin. rewrite (g_quantity _ _ _ _ G k it Hin).
    unfold names. rewrite length_map. split; [reflexivity|].
    destruct (g_first _ _ _ _ G k it Hin) as [sn [c [Hhd _]]].
    unfold names in Hhd. destruct (Item.SerialNumbers it); [discriminate|simpl; lia]. }
  split; [exact (g_total _ _ _ _ G)|].
  split; [exact (g_perm _ _ _ _ G)|].
  split; [|split; [exact Hqty|]].
  - intros sn Hin.
    assert (Hsn : In sn (all_names items))
      by (apply (Permutation_in sn (Permutation_sym (g_perm _ _ _ _ G))); exact Hin).
    apply in_all_names in Hsn. destruct Hsn as [k [it [Hit Hsn]]].
    exists k, it. split; [exact Hit|]. split; [exact Hsn|].
    intros k' it' Hit' Hsn'.
    pose proof (grouped_member_key d 0 serial_numbers items k it sn G Hit Hsn) as Hk.
    pose proof (grouped_member_key d 0 serial_numbers items k' it' sn G Hit' Hsn') as Hk'.
    assert (k' = k) by congruence. subst k'. split; [reflexivity|].
    exact (value_of_key items k it' it Hnd Hit' Hit).
  - rewrite Hlines, Hserials. split; [apply line_quantities_from|].
    split; [exact Hdocs|].
    intros line Hin.
    assert (Hcount := line_quantity_counts s invoice_id Hdistinct items
                        (g_quantity _ _ _ _ G) 0 line Hin).
    split; [|exact Hcount].
    assert (Hq : In (InvoiceLine.quantity line)
                    (map InvoiceLine.quantity (lines_from s invoice_id 0 items)))
      by (apply in_map; exact Hin).
    rewrite line_quantities_from in Hq. apply in_map_iff in Hq.
    destruct Hq as [[k it] [Heq Hit]]. simpl in Heq. rewrite <- Heq.
    apply (Hqty k it Hit).
Qed.

Lemma aggregation_partitions_witness :
  total_quantity Sample.groups = 3
  /\ Permutation (all_names Sample.groups) ["SN1"; "SN2"; "SN3"]
  /\ map InvoiceLine.quantity (new_lines (snd Sample.payload_and_rows)) = [2; 1].
Proof.
  assert (Hdistinct : distinct_line_ids Sample.server)
    by (intros i j H; simpl in H; lia).
  assert (Hne : ["SN1"; "SN2"; "SN3"] <> []) by discriminate.
  destruct (aggregation_partitions Sample.server Sample.store 1 Sample.today "C001"
              ["SN1"; "SN2"; "SN3"] Sample.groups
              (fst Sample.payload_and_rows) (snd Sample.payload_and_rows)
              Hne eq_refl eq_refl Hdistinct)
    as [Htotal [Hperm [_ [_ [Hq _]]]]].
  split; [exact Htotal|]. split; [exact Hperm|exact Hq].
Defined.

(** ** Base line numbers *)

Lemma indexed_base_lines_constant (ln : nat) (items : items_dict) :
  (forall k it e, In (k, it) items -> In e (Item.SerialNumbers it) ->
                  SerialEntry.BaseLineNumber e = ln) ->
  forall start i n, In (i, n) (indexed_base_lines start items) -> n = ln.
Proof.
  induction items as [|[k it] rest IH]; intros Hent start i n Hin; simpl in Hin.
  - destruct Hin.
  - apply in_app_or in Hin. destruct Hin as [Hin|Hin].
    + apply in_map_iff in Hin. destruct Hin as [e [Heq He]].
      injection Heq as _ <-. apply (Hent k it e); [now left|exact He].
    + apply (IH (fun k' it' e' H => Hent k' it' e' (or_intror H)) (S start) i n Hin).
Qed.

(** The grouping loop files every serial under the line number it is
    given, and [create_invoice] gives it 0: the counter is only advanced by
    the second loop. *)
Lemma base_line_numbers_constant (d : db) (serial_numbers : list string)
      (items : items_dict) :
  group_serials d 0 serial_numbers [] = inr items ->
  forall i n, In (i, n) (indexed_base_lines 0 items) -> n = 0.
Proof.
  intros Hgroup. pose proof (group_serials_inv d 0 serial_numbers items Hgroup) as G.
  apply indexed_base_lines_constant.
  intros k it e Hin He. apply (g_entries _ _ _ _ G k it e Hin He).
Qed.

(** C1 (the code at the failing input) — customer C001 with serials SN1,
    SN2, SN3, where SN1 and SN2 resolve to ITM-A/WH1 and SN3 to ITM-B/WH1:
    the aggregation yields group 0 (ITM-A, quantity 2) and group 1 (ITM-B,
    quantity 1) and the local lines are numbered 0 and 1, but SN3, which
    belongs to group 1, carries base line number 0 in the payload sent to SAP
    and in the local serial row, where the index of its group is 1. *)
Theorem base_line_numbers_scenario :
  let o := create_invoice Sample.server Sample.accepting 7 Sample.today
             Sample.order Sample.store in
  group_serials Sample.store 0 (requested_serials Sample.order) [] = inr Sample.groups
  /\ map (fun kv => (group_pair kv, Item.Quantity (snd kv), names (snd kv))) Sample.groups
     = [((Some "ITM-A", Some "WH1"), 2, ["SN1"; "SN2"]);
        ((Some "ITM-B", Some "WH1"), 1, ["SN3"])]
  /\ indexed_base_lines 0 Sample.groups = [(0, 0); (0, 0); (1, 0)]
  /\ map InvoiceLine.line_number (lines (out_db o)) = [0; 1]
  /\ map (fun r => (InvoiceSerialNumber.serial_number r,
                    InvoiceSerialNumber.invoice_line_id r,
                    InvoiceSerialNumber.base_line_number r))
         (serials (out_db o))
     = [("SN1", 1%Z, 0); ("SN2", 1%Z, 0); ("SN3", 2%Z, 0)]
  /\ out_calls o
     = [EnsureLoggedIn;
        Post "https://sap:50000/b1s/v1/Invoices" (fst Sample.payload_and_rows) 60]
  /\ map (map serial_json)
         (map (fun kv => Item.SerialNumbers (snd kv)) Sample.groups)
     = [[JObj [("InternalSerialNumber", JStr "SN1"); ("BaseLineNumber", JInt 0);
               ("Quantity", JFloat Py.one)];
         JObj [("InternalSerialNumber", JStr "SN2"); ("BaseLineNumber", JInt 0);
               ("Quantity", JFloat Py.one)]];
        [JObj [("InternalSerialNumber", JStr "SN3"); ("BaseLineNumber", JInt 0);
               ("Quantity", JFloat Py.one)]]].
Proof. vm_compute. repeat split; reflexivity. Qed.

(** ** Order of the line groups *)

(** Over the printed key [f"{item_code}_{warehouse_code}"] the grouping is
    order-stable: the groups stand in the order in which their keys are first
    seen, and each group holds, in input order, the serials of its key. *)
Lemma grouping_order_stable (d : db) (serial_numbers : list string) (items : items_dict) :
  group_serials d 0 serial_numbers [] = inr items ->
  map fst items = first_occ (keys_of d serial_numbers)
  /\ forall k it, In (k, it) items -> names it = filter (has_key d k) serial_numbers.
Proof.
  intros Hgroup. pose proof (group_serials_inv d 0 serial_numbers items Hgroup) as G.
  split; [exact (g_keys _ _ _ _ G)|exact (g_names _ _ _ _ G)].
Qed.

(** Two inputs whose printed keys are first seen in the same order give
    the same sequence of keys. *)
Lemma grouping_same_order (d : db) (input1 input2 : list string)
      (items1 items2 : items_dict) :
  Permutation input1 input2 ->
  first_occ (keys_of d input1) = first_occ (keys_of d input2) ->
  group_serials d 0 input1 [] = inr items1 ->
  group_serials d 0 input2 [] = inr items2 ->
  map fst items1 = map fst items2.
Proof.
  intros _ Horder H1 H2.
  destruct (grouping_order_stable d input1 items1 H1) as [K1 _].
  destruct (grouping_order_stable d input2 items2 H2) as [K2 _].
  congruence.
Qed.

(** A group is billed under the item and warehouse of its first serial. *)
Lemma group_pair_of_first (d : db) (serial_numbers : list string) (items : items_dict) :
  group_serials d 0 serial_numbers [] = inr items ->
  forall kv, In kv items ->
             exists sn, hd_error (names (snd kv)) = Some sn
                        /\ serial_pair d sn = Some (group_pair kv)
                        /\ serial_key d sn = Some (fst kv).
Proof.
  intros Hgroup [k it] Hin.
  pose proof (group_serials_inv d 0 serial_numbers items Hgroup) as G.
  destruct (g_first _ _ _ _ G k it Hin) as [sn [c [Hhd [Hc [Hk [Hi [_ [Hw _]]]]]]]].
  exists sn. unfold serial_pair, serial_key, group_pair. simpl.
  rewrite Hc, Hi, Hw, Hk. auto.
Qed.

(** *** When the printed keys are faithful *)

Lemma opt_str_eqb_eq (x y : option string) : opt_str_eqb x y = true <-> x = y.
Proof.
  destruct x as [a|], y as [b|]; simpl; split; try congruence.
  - intros H. apply String.eqb_eq in H. now subst.
  - intros H. injection H as ->. apply String.eqb_refl.
Qed.

Lemma pair_eqb_eq (p q : option string * option string) : pair_eqb p q = true <-> p = q.
Proof.
  destruct p as [a b], q as [a' b']. unfold pair_eqb. simpl.
  rewrite andb_true_iff, !opt_str_eqb_eq. split.
  - intros [-> ->]. reflexivity.
  - intros H. injection H as -> ->. auto.
Qed.

Lemma first_pairs_incl (l : list (option string * option string)) :
  forall p, In p (first_pairs l) -> In p l.
Proof.
  induction l as [|q rest IH]; intros p Hin; simpl in *; [exact Hin|].
  destruct Hin as [H|H]; [now left|].
  apply filter_In in H. right. apply IH. apply H.
Qed.

Lemma keys_faithful_tail (p : option string * option string)
      (l : list (option string * option string)) :
  keys_faithful (p :: l) -> keys_faithful l.
Proof. intros H x y Hx Hy. apply H; now right. Qed.

Lemma filter_printed (p : option string * option string)
      (xs : list (option string * option string)) :
  (forall x, In x xs -> String.eqb (pair_key x) (pair_key p) = pair_eqb x p) ->
  filter (fun k => negb (String.eqb k (pair_key p))) (map pair_key xs)
  = map pair_key (filter (fun x => negb (pair_eqb x p)) xs).
Proof.
  induction xs as [|x rest IH]; intros Hagree; simpl; [reflexivity|].
  rewrite (Hagree x (or_introl eq_refl)).
  rewrite IH by (intros y Hy; apply Hagree; now right).
  destruct (pair_eqb x p); reflexivity.
Qed.

Lemma first_occ_of_pairs (l : list (option string * option string)) :
  keys_faithful l -> first_occ (map pair_key l) = map pair_key (first_pairs l).
Proof.
  induction l as [|p rest IH]; intros Hf; simpl; [reflexivity|].
  rewrite (IH (keys_faithful_tail p rest Hf)). f_equal.
  apply filter_printed. intros x Hx. apply first_pairs_incl in Hx.
  destruct (pair_eqb x p) eqn:E.
  - apply pair_eqb_eq in E. subst. apply String.eqb_refl.
  - apply String.eqb_neq. intros Hk.
    assert (x = p) by (apply Hf; [now right|now left|exact Hk]).
    subst. rewrite (proj2 (pair_eqb_eq p p) eq_refl) in E. discriminate E.
Qed.

Lemma keys_of_pairs (d : db) (serial_numbers : list string) :
  keys_of d serial_numbers = map pair_key (pairs_of d serial_numbers).
Proof.
  unfold keys_of, pairs_of.
  induction serial_numbers as [|sn rest IH]; simpl; [reflexivity|].
  rewrite map_app, IH. f_equal.
  unfold serial_key, serial_pair. destruct (first_lookup sn d); reflexivity.
Qed.

Lemma same_printed (l : list (option string * option string)) :
  keys_faithful l ->
  forall l1 l2,
    incl l1 l -> incl l2 l -> map pair_key l1 = map pair_key l2 -> l1 = l2.
Proof.
  intros Hf. induction l1 as [|x xs IH]; intros [|y ys] H1 H2 Hmap;
    try discriminate; [reflexivity|].
  simpl in Hmap. injection Hmap as Hxy Hrest. f_equal.
  - apply Hf; [apply H1; now left|apply H2; now left|exact Hxy].
  - apply IH; [intros z Hz; apply H1; now right
              |intros z Hz; apply H2; now right|exact Hrest].
Qed.

(** As long as no two different (item_code, warehouse_code) pairs of the
    input print to the same key, the groups are billed under the pairs of the
    input in the order in which each pair is first seen. *)
Lemma groups_follow_pairs (d : db) (serial_numbers : list string) (items : items_dict) :
  group_serials d 0 serial_numbers [] = inr items ->
  keys_faithful (pairs_of d serial_numbers) ->
  map group_pair items = first_pairs (pairs_of d serial_numbers).
Proof.
  intros Hgroup Hf.
  destruct (grouping_order_stable d serial_numbers items Hgroup) as [Hkeys Hnames].
  pose proof (group_pair_of_first d serial_numbers items Hgroup) as Hfirst.
  assert (Hin : forall kv, In kv items ->
                           In (group_pair kv) (pairs_of d serial_numbers)
                           /\ fst kv = pair_key (group_pair kv)).
  { intros [k it] Hkv. destruct (Hfirst (k, it) Hkv) as [sn [Hhd [Hp Hk]]].
    simpl in Hhd, Hk. split.
    - unfold pairs_of. apply in_flat_map. exists sn. split.
      + assert (Hsn : In sn (names it))
          by (destruct (names it); [discriminate|injection Hhd as ->; now left]).
        rewrite (Hnames k it Hkv) in Hsn. apply filter_In in Hsn. apply Hsn.
      + rewrite Hp. now left.
    - unfold serial_key, serial_pair in *.
      destruct (first_lookup sn d) as [c|]; [|discriminate].
      cbn [option_map] in Hp, Hk.
      assert (Hp' : (SerialNumberLookup.item_code c, SerialNumberLookup.warehouse_code c)
                    = group_pair (k, it)) by congruence.
      assert (Hk' : group_key c = k) by congruence.
      rewrite <- Hp'. cbn [fst]. rewrite <- Hk'. reflexivity. }
  apply (same_printed (pairs_of d serial_numbers) Hf).
  - intros p Hp. apply in_map_iff in Hp. destruct Hp as [kv [<- Hkv]].
    apply (Hin kv Hkv).
  - intros p Hp. now apply first_pairs_incl.
  - rewrite <- first_occ_of_pairs by exact Hf.
    rewrite <- keys_of_pairs, <- Hkeys, map_map.
    symmetry. apply map_ext_in. intros kv Hkv. apply (Hin kv Hkv).
Qed.

Example clash_not_faithful :
  ~ keys_faithful (pairs_of Sample.clash_store ["SN1"; "SN2"]).
Proof.
  intros H.
  specialize (H (Some "LAP_15", Some "01") (Some "LAP", Some "15_01")).
  simpl in H. discriminate H; auto.
Qed.

(** C8 (the code at the failing input) — SN1 is item LAP_15 in warehouse 01
    and SN2 is item LAP in warehouse 15_01: two different (item_code,
    warehouse_code) pairs, both printed as the key LAP_15_01.  The pair of
    SN2 is first seen at the second position, yet the output has no second
    group: SN2 is appended to the group of SN1 and billed as LAP_15 from
    warehouse 01, with quantity 2. *)
Theorem grouping_key_clash :
  serial_pair Sample.clash_store "SN1" = Some (Some "LAP_15", Some "01")
  /\ serial_pair Sample.clash_store "SN2" = Some (Some "LAP", Some "15_01")
  /\ serial_key Sample.clash_store "SN1" = Some "LAP_15_01"
  /\ serial_key Sample.clash_store "SN2" = Some "LAP_15_01"
  /\ group_serials Sample.clash_store 0 ["SN1"; "SN2"] [] = inr Sample.clash_groups
  /\ map (fun kv => (fst kv, group_pair kv, Item.Quantity (snd kv), names (snd kv)))
         Sample.clash_groups
     = [("LAP_15_01", (Some "LAP_15", Some "01"), 2, ["SN1"; "SN2"])].
Proof. vm_compute. repeat split; reflexivity. Qed.

(** ** The payload and the clock *)


Example payload_dates :
  exists rest,
    fst Sample.payload_and_rows
    = JObj (("DocDate", JStr "2024-05-17T12:00:00.000000Z")
              :: ("DocDueDate", JStr "2024-05-18T12:00:00.000000Z")
              :: ("CardCode", JStr "C001") :: rest).
Proof. eexists. vm_compute. reflexivity. Qed.



(** ** One lookup entry per serial number *)

Lemma opt_str_eqb_sym (x y : option string) : opt_str_eqb x y = opt_str_eqb y x.
Proof. destruct x, y; simpl; auto using String.eqb_sym. Qed.

Lemma has_dup_snoc (l : list (option string)) (x : option string) :
  has_dup (l ++ [x]) = has_dup l || existsb (opt_str_eqb x) l.
Proof.
  induction l as [|y rest IH]; simpl; [reflexivity|].
  rewrite IH, existsb_app. simpl. rewrite (opt_str_eqb_sym x y).
  destruct (existsb (opt_str_eqb y) rest), (opt_str_eqb y x), (has_dup rest);
    simpl; auto.
Qed.

Lemma no_row_no_serial (sn : string) (t : list SerialNumberLookup.row) :
  find (SerialNumberLookup.has_serial sn) t = None ->
  existsb (opt_str_eqb (Some sn)) (serial_column t) = false.
Proof.
  induction t as [|r rest IH]; simpl; [reflexivity|].
  unfold SerialNumberLookup.has_serial at 1.
  destruct (SerialNumberLookup.serial_number r) as [s'|]; simpl.
  - rewrite (String.eqb_sym sn s').
    destruct (String.eqb s' sn); [discriminate|exact IH].
  - exact IH.
Qed.

(** "Cache the result" is an upsert. *)
Lemma cache_result_one_entry (sn : string) (it : SapItem.t) (now : datetime) (d : db) :
  one_entry_per_serial d ->
  one_entry_per_serial (cache_result sn (first_lookup sn d) it now d).
Proof.
  unfold one_entry_per_serial, cache_result. intros H.
  destruct (first_lookup sn d) as [c|] eqn:E; simpl.
  - rewrite update_first_column; [exact H|].
    simpl. exact (first_lookup_serial sn d c E).
  - unfold serial_column. rewrite map_app. simpl. fold (serial_column (lookups d)).
    rewrite has_dup_snoc, H. simpl. now apply no_row_no_serial.
Qed.

(** [lookup_serial], the other writer of the table, keeps one entry per
    serial number. *)
Lemma lookup_serial_one_entry (sap : SAPIntegration) (now now' : datetime)
      (data : lookup_request) (d : db) :
  one_entry_per_serial d ->
  one_entry_per_serial (out_db (lookup_serial sap now now' data d)).
Proof.
  intros H. unfold lookup_serial. fold (requested data).
  destruct (negb (Py.truthy (requested data))); [exact H|].
  destruct (fresh_lookup now (first_lookup (requested data) d)); [exact H|].
  destruct (negb (ensure_logged_in sap)); [exact H|].
  destruct (post sap _ _ 30) as [e|r]; [exact H|].
  destruct (status_code r =? 200)%Z; [|exact H].
  destruct (json_of r) as [e|o|t]; try exact H.
  destruct (SapObject.value o) as [[|it rest]|]; try exact H.
  simpl. now apply cache_result_one_entry.
Qed.

Lemma commit_lookups_appends (s : dbms) (pending t t' : list SerialNumberLookup.row) :
  commit_lookups s pending t = Some t' -> t' = t ++ pending.
Proof.
  unfold commit_lookups. destruct (unique_serial s && _); congruence.
Qed.

(** [create] never rewrites a row of the lookup table: whatever it is
    asked, the table it leaves is the old one, or the old one followed by
    one new row per serial item. *)
Lemma create_only_appends (s : dbms) (has_permission : bool) (user_id : Z)
      (now : datetime) (clock : nat -> datetime) (request : CreateRequest.t) (d : db) :
  let d' := snd (create s has_permission user_id now clock request d) in
  d' = d
  \/ exists serial_items,
      CreateRequest.serial_items request = Some serial_items
      /\ lookups d' = lookups d ++ pending_lookups clock 0 serial_items.
Proof.
  unfold create.
  destruct has_permission; simpl; [|now left].
  destruct (CreateRequest.is_post request); [|now left].
  destruct (CreateRequest.is_json request); [|now left].
  destruct (CreateRequest.customer_code request) as [[|ch cs]|]; try (now left).
  destruct (CreateRequest.serial_items request) as [[|it rest]|]; try (now left).
  destruct (CreateRequest.invoice_date request); try (now left).
  all: destruct (commit_lookups s (pending_lookups clock 0 (it :: rest)) (lookups d))
    as [t|] eqn:E; [|now left].
  all: right; exists (it :: rest); split; [reflexivity|].
  all: simpl; now apply commit_lookups_appends with s.
Qed.

(** C7 (the code at the failing input) — SN1 has an entry (item ITM-A) and a
    [create] request records SN1 again as item ITM-Z.  [create] adds a new row
    without looking for the existing one.  Where the UNIQUE constraint of the
    migration is in force the commit fails: the reply is a 500 and the table is
    as before, the entry of SN1 not updated.  Where it is not, the table ends
    with two entries for SN1, and [first()] still returns the old one. *)
Theorem create_records_without_upsert :
  let clock := fun _ : nat => Sample.today in
  one_entry_per_serial Sample.store
  /\ create Sample.server true 7 Sample.today clock Sample.again Sample.store
     = (Json (failure "error"
                "Error creating invoice: Duplicate entry for key 'serial_number'" 500),
        Sample.store)
  /\ (let d' := snd (create Sample.lax_server true 7 Sample.today clock
                       Sample.again Sample.store) in
      serial_column (lookups d') = [Some "SN1"; Some "SN2"; Some "SN3"; Some "SN1"]
      /\ ~ one_entry_per_serial d'
      /\ first_lookup "SN1" d' = Some Sample.row1
      /\ map SerialNumberLookup.item_code (lookups d')
         = [Some "ITM-A"; Some "ITM-A"; Some "ITM-B"; Some "ITM-Z"]).
Proof.
  vm_compute. repeat split; try reflexivity. discriminate.
Qed.

(** * Further properties of the handlers *)

(** ** [lookup_serial]: what a lookup leaves alone *)

Lemma find_update_other (s s' : string) (r' : SerialNumberLookup.row)
      (t : list SerialNumberLookup.row) :
  s' <> s ->
  SerialNumberLookup.serial_number r' = Some s ->
  find (SerialNumberLookup.has_serial s') (update_first s r' t)
  = find (SerialNumberLookup.has_serial s') t.
Proof.
  intros Hne Hr'. induction t as [|r t IH]; simpl; [reflexivity|].
  destruct (SerialNumberLookup.has_serial s r) eqn:E; simpl.
  - apply has_serial_eq in E.
    unfold SerialNumberLookup.has_serial. rewrite Hr', E.
    apply String.eqb_neq in Hne. rewrite String.eqb_sym in Hne. now rewrite Hne.
  - now rewrite IH.
Qed.

Lemma find_append_other (s s' : string) (r' : SerialNumberLookup.row)
      (t : list SerialNumberLookup.row) :
  s' <> s ->
  SerialNumberLookup.serial_number r' = Some s ->
  find (SerialNumberLookup.has_serial s') (t ++ [r'])
  = find (SerialNumberLookup.has_serial s') t.
Proof.
  intros Hne Hr'. induction t as [|r t IH]; simpl.
  - unfold SerialNumberLookup.has_serial. rewrite Hr'.
    apply String.eqb_neq in Hne. rewrite String.eqb_sym in Hne. now rewrite Hne.
  - now rewrite IH.
Qed.

Lemma cache_result_other (sn s' : string) (it : SapItem.t) (now : datetime) (d : db) :
  s' <> sn ->
  first_lookup s' (cache_result sn (first_lookup sn d) it now d) = first_lookup s' d.
Proof.
  intros Hne. unfold cache_result.
  destruct (first_lookup sn d) as [c|] eqn:E; unfold first_lookup; simpl.
  - apply find_update_other; [exact Hne|]. simpl. exact (first_lookup_serial sn d c E).
  - now apply find_append_other with sn.
Qed.

Lemma cache_result_tables (sn : string) (cached : option SerialNumberLookup.row)
      (it : SapItem.t) (now : datetime) (d : db) :
  documents (cache_result sn cached it now d) = documents d
  /\ lines (cache_result sn cached it now d) = lines d
  /\ serials (cache_result sn cached it now d) = serials d.
Proof. unfold cache_result. destruct cached; simpl; auto. Qed.

(** What [lookup_serial] does to the database: nothing, or "Cache the
    result" for the requested serial number, and then its reply is the
    success reply of a fresh lookup. *)
Lemma lookup_serial_db (sap : SAPIntegration) (now now' : datetime)
      (data : lookup_request) (d : db) :
  let o := lookup_serial sap now now' data d in
  out_db o = d
  \/ exists it,
      out_db o = cache_result (requested data) (first_lookup (requested data) d) it now' d
      /\ out_reply o = jsonify [("success", JBool true); ("data", SapItem.raw it);
                                ("cached", JBool false)].
Proof.
  unfold lookup_serial. fold (requested data).
  destruct (negb (Py.truthy (requested data))); [now left|].
  destruct (fresh_lookup now (first_lookup (requested data) d)); [now left|].
  destruct (negb (ensure_logged_in sap)); [now left|].
  destruct (post sap _ _ 30) as [e|r]; [now left|].
  destruct (status_code r =? 200)%Z; [|now left].
  destruct (json_of r) as [e|o|t]; try (now left).
  destruct (SapObject.value o) as [[|it rest]|]; try (now left).
  right. exists it. simpl. auto.
Qed.

(** X1 — [lookup_serial] keeps the lookup table free of duplicates: if no
    two entries carry the same serial number before a request, none do after
    it, whatever SAP answers. *)
Theorem lookup_serial_keeps_one_entry :
  forall (sap : SAPIntegration) (now now' : datetime) (data : lookup_request) (d : db),
    one_entry_per_serial d ->
    one_entry_per_serial (out_db (lookup_serial sap now now' data d)).
Proof.
  intros sap now now' data d H.
  destruct (lookup_serial_db sap now now' data d) as [E|[it [E _]]]; rewrite E.
  - exact H.
  - now apply cache_result_one_entry.
Qed.

Lemma lookup_serial_keeps_one_entry_witness :
  one_entry_per_serial
    (out_db (lookup_serial Sample.accepting Sample.t_elapsed Sample.t_later
                           (Sample.ask "SN1") Sample.store))
  /\ one_entry_per_serial
       (out_db (lookup_serial Sample.accepting Sample.t_elapsed Sample.t_later
                              (Sample.ask "SN7") Sample.store)).
Proof.
  split; apply lookup_serial_keeps_one_entry; reflexivity.
Defined.

(** X2 — A lookup only ever touches the entry of the serial number it is
    asked for: the entry found for any other serial number is the same before
    and after, and the invoice, line and serial tables are left as they
    were. *)
Theorem lookup_serial_touches_one_serial :
  forall (sap : SAPIntegration) (now now' : datetime) (data : lookup_request) (d : db),
    let o := lookup_serial sap now now' data d in
    (forall other, other <> requested data ->
                   first_lookup other (out_db o) = first_lookup other d)
    /\ documents (out_db o) = documents d
    /\ lines (out_db o) = lines d
    /\ serials (out_db o) = serials d.
Proof.
  intros sap now now' data d o.
  destruct (lookup_serial_db sap now now' data d) as [E|[it [E _]]];
    fold o in E; rewrite E.
  - auto.
  - split; [|apply cache_result_tables].
    intros other Hne. now apply cache_result_other.
Qed.

(** X3 — Only a successful remote lookup writes: whenever the reply of
    [lookup_serial] is not a 200, the database is exactly as before (a stale
    entry stays as it is, nothing is cached for a serial number SAP does not
    know), and the status is 400, 404 or 500. *)
Theorem lookup_serial_failure_writes_nothing :
  forall (sap : SAPIntegration) (now now' : datetime) (data : lookup_request) (d : db),
    let o := lookup_serial sap now now' data d in
    http_status (out_reply o) <> 200%Z ->
    out_db o = d
    /\ (http_status (out_reply o) = 400%Z
        \/ http_status (out_reply o) = 404%Z
        \/ http_status (out_reply o) = 500%Z).
Proof.
  intros sap now now' data d o. subst o.
  unfold lookup_serial. fold (requested data).
  destruct (negb (Py.truthy (requested data))); [simpl; auto|].
  destruct (fresh_lookup now (first_lookup (requested data) d));
    [simpl; intros H; now contradiction H|].
  destruct (negb (ensure_logged_in sap)); [simpl; auto|].
  destruct (post sap _ _ 30) as [e|r]; [simpl; auto|].
  destruct (status_code r =? 200)%Z; [|simpl; auto].
  destruct (json_of r) as [e|o|t]; try (simpl; auto).
  destruct (SapObject.value o) as [[|it rest]|]; simpl; auto.
  intros H. now contradiction H.
Qed.

Lemma lookup_serial_failure_writes_nothing_witness :
  out_db (lookup_serial Sample.unreachable Sample.t_elapsed Sample.t_later
                        (Sample.ask "  ") Sample.store) = Sample.store.
Proof.
  apply (lookup_serial_failure_writes_nothing Sample.unreachable Sample.t_elapsed
           Sample.t_later (Sample.ask "  ") Sample.store).
  simpl. discriminate.
Defined.

Lemma lookup_serial_touches_one_serial_witness :
  first_lookup "SN2"
    (out_db (lookup_serial Sample.accepting Sample.t_elapsed Sample.t_later
                           (Sample.ask "SN1") Sample.store))
  = Some Sample.row2.
Proof.
  destruct (lookup_serial_touches_one_serial Sample.accepting Sample.t_elapsed
              Sample.t_later (Sample.ask "SN1") Sample.store) as [H _].
  rewrite (H "SN2"); [reflexivity|discriminate].
Defined.

(** ** From a lookup to an invoice line *)



(** ** [create]: what a request stores *)

(** X5 — [create] stores all or nothing.  Either it replies with the
    success message and has added exactly one draft invoice (status 'draft',
    total 0.0, this user, no SAP reference) and one lookup row per serial
    item, with no invoice line and no serial row; or the database is exactly
    as before, and a JSON reply, if any, is a 400 or a 500. *)
Theorem create_all_or_nothing :
  forall (s : dbms) (has_permission : bool) (user_id : Z) (now : datetime)
         (clock : nat -> datetime) (request : CreateRequest.t) (d : db),
    let r := create s has_permission user_id now clock request d in
    (exists customer_code serial_items doc_date,
        CreateRequest.customer_code request = Some customer_code
        /\ CreateRequest.serial_items request = Some serial_items
        /\ serial_items <> []
        /\ fst r = Json (jsonify [("success", JBool true);
                                  ("message", JStr "Invoice created successfully");
                                  ("invoice_id", JInt (new_invoice_id s))])
        /\ lookups (snd r) = lookups d ++ pending_lookups clock 0 serial_items
        /\ documents (snd r)
           = documents d
             ++ [InvoiceDocument.mk (new_invoice_id s) user_id customer_code
                                    (Some doc_date) "draft" (Some (NFloat Py.zero))
                                    None None None None None]
        /\ lines (snd r) = lines d
        /\ serials (snd r) = serials d)
    \/ (snd r = d
        /\ forall reply, fst r = Json reply ->
                         http_status reply = 400%Z \/ http_status reply = 500%Z).
Proof.
  intros s has_permission user_id now clock request d. unfold create.
  assert (Hstop : forall msg code,
             (code = 400%Z \/ code = 500%Z) ->
             forall reply, Json (failure "error" msg code) = Json reply ->
                           http_status reply = 400%Z \/ http_status reply = 500%Z).
  { intros msg code Hcode reply H. injection H as <-. exact Hcode. }
  destruct has_permission; simpl; [|right; split; [reflexivity|discriminate]].
  destruct (CreateRequest.is_post request);
    [|right; split; [reflexivity|discriminate]].
  destruct (CreateRequest.is_json request);
    [|right; split; [reflexivity|discriminate]].
  destruct (CreateRequest.customer_code request) as [[|ch cs]|];
    try (right; split; [reflexivity|apply Hstop; auto]).
  destruct (CreateRequest.serial_items request) as [[|it rest]|];
    try (right; split; [reflexivity|apply Hstop; auto]).
  destruct (CreateRequest.invoice_date request) as [|e|y m dd];
    try (right; split; [reflexivity|apply Hstop; auto]).
  all: destruct (commit_lookups s (pending_lookups clock 0 (it :: rest)) (lookups d))
    as [t|] eqn:E; [|right; split; [reflexivity|apply Hstop; auto]].
  all: apply commit_lookups_appends in E; subst t; left.
  - exists (String ch cs), (it :: rest), (date_of now). simpl.
    repeat split; auto. discriminate.
  - exists (String ch cs), (it :: rest), (y, m, dd). simpl.
    repeat split; auto. discriminate.
Qed.






Lemma create_all_or_nothing_witness :
  lookups (snd (create Sample.server true 7 Sample.today Demo.clock Demo.fresh
                       Sample.store))
  = lookups Sample.store ++ pending_lookups Demo.clock 0
                              [SerialItem.mk JNull (Some "SN8") (Some "ITM-Q")
                                             (Some "Item Q") (Some "WH3")]
  /\ snd (create Sample.server true 7 Sample.today Demo.clock Sample.again Sample.store)
     = Sample.store.
Proof.
  split.
  - destruct (create_all_or_nothing Sample.server true 7 Sample.today Demo.clock
                Demo.fresh Sample.store)
      as [[c [items [dt [_ [Hi [_ [_ [Hl _]]]]]]]]|[_ Hcode]].
    + injection Hi as <-. exact Hl.
    + exfalso. destruct (Hcode _ eq_refl) as [H|H]; discriminate H.
  - destruct (create_all_or_nothing Sample.server true 7 Sample.today Demo.clock
                Sample.again Sample.store)
      as [[c [items [dt [_ [_ [_ [Hr _]]]]]]]|[Hsame _]].
    + discriminate Hr.
    + exact Hsame.
Defined.


(** ** [create_invoice]: what a request stores *)

Lemma submit_lookups (sap : SAPIntegration) (invoice : InvoiceDocument.row)
      (sap_invoice : json) (b : built) (d : db) :
  let o := submit sap invoice sap_invoice b d in
  lookups (out_db o) = lookups d
  /\ (ensure_logged_in sap = false -> out_db o = d).
Proof.
  unfold submit. destruct (ensure_logged_in sap); simpl.
  - split; [|discriminate].
    destruct (post sap (invoices_url sap) sap_invoice 60) as [e|r]; [reflexivity|].
    destruct (status_code r =? 201)%Z; [|reflexivity].
    destruct (json_of r) as [e|doc|t]; try reflexivity.
    destruct (float_or_zero _); reflexivity.
  - auto.
Qed.

(** X7 — [create_invoice] never writes the lookup table, and stores nothing
    at all unless it has posted the invoice to SAP: a request that is
    rejected, that names an unknown serial number, or that finds SAP's login
    failing leaves no draft, no line and no serial row behind. *)
Theorem create_invoice_stores_only_when_posted :
  forall (s : dbms) (sap : SAPIntegration) (user_id : Z) (now : datetime)
         (data : InvoiceRequest.t) (d : db),
    let o := create_invoice s sap user_id now data d in
    lookups (out_db o) = lookups d
    /\ (submitted sap (out_calls o) = false -> out_db o = d).
Proof.
  intros s sap user_id now data d o.
  destruct (create_invoice_cases s sap user_id now data d)
    as [[_ Hd]|[items [p [b [_ [_ [_ Ho]]]]]]]; fold o in Hd || fold o in Ho.
  - rewrite Hd. auto.
  - rewrite Ho.
    destruct (submit_lookups sap
                (draft_with_payload s user_id (requested_customer data) p) p b d)
      as [Hl Hfail].
    split; [exact Hl|].
    rewrite submit_submitted. exact Hfail.
Qed.

Lemma create_invoice_stores_only_when_posted_witness :
  out_db (create_invoice Sample.server
            (mk_sap "https://sap:50000" false (fun _ _ _ => Raises "unused"))
            7 Sample.today Sample.order Sample.store)
  = Sample.store.
Proof.
  apply (create_invoice_stores_only_when_posted Sample.server
           (mk_sap "https://sap:50000" false (fun _ _ _ => Raises "unused"))
           7 Sample.today Sample.order Sample.store).
  reflexivity.
Defined.





(** ** [create_invoice]: the branch of the document *)

Lemma first_group_of_first_serial (d : db) (sn0 : string) (rest : list string)
      (c0 : SerialNumberLookup.row) (items : items_dict) :
  first_lookup sn0 d = Some c0 ->
  group_serials d 0 (sn0 :: rest) [] = inr items ->
  exists first_item others,
    items = (group_key c0, first_item) :: others
    /\ Item.BPL_IDAssignedToInvoice first_item = SerialNumberLookup.branch_id c0
    /\ Item.BPLName first_item = SerialNumberLookup.branch_name c0.
Proof.
  intros Hc0 Hg.
  pose proof (group_serials_inv d 0 (sn0 :: rest) items Hg) as G.
  pose proof (g_keys _ _ _ _ G) as Hkeys.
  unfold keys_of in Hkeys. simpl in Hkeys. unfold serial_key in Hkeys at 1.
  rewrite Hc0 in Hkeys. simpl in Hkeys.
  destruct items as [|[k first_item] others]; [discriminate Hkeys|].
  simpl in Hkeys. injection Hkeys as Hk _. subst k.
  exists first_item, others. split; [reflexivity|].
  destruct (g_first _ _ _ _ G (group_key c0) first_item (or_introl eq_refl))
    as [sn [c [Hhd [Hc [_ [_ [_ [_ [_ [Hb Hn]]]]]]]]]].
  rewrite (g_names _ _ _ _ G (group_key c0) first_item (or_introl eq_refl)) in Hhd.
  simpl in Hhd. rewrite (has_key_row d (group_key c0) sn0 c0 Hc0) in Hhd.
  rewrite String.eqb_refl in Hhd. simpl in Hhd. injection Hhd as <-.
  assert (c = c0) by congruence. subst c. auto.
Qed.

(** X9 — The branch of the document posted by [create_invoice] is the
    branch of the entry of the first serial number of the request: the
    payload's BPL_IDAssignedToInvoice and BPLName are read from that entry,
    whatever branches the other serial numbers belong to, and its CardCode is
    the stripped customer code. *)
Theorem create_invoice_branch_of_first_serial :
  forall (s : dbms) (sap : SAPIntegration) (user_id : Z) (now : datetime)
         (data : InvoiceRequest.t) (d : db)
         (sn0 : string) (rest : list string) (c0 : SerialNumberLookup.row),
    requested_serials data = sn0 :: rest ->
    first_lookup sn0 d = Some c0 ->
    let o := create_invoice s sap user_id now data d in
    submitted sap (out_calls o) = true ->
    exists members,
      out_calls o = [EnsureLoggedIn; Post (invoices_url sap) (JObj members) 60]
      /\ dict_get "BPL_IDAssignedToInvoice" members
         = Some (jopt_int (SerialNumberLookup.branch_id c0))
      /\ dict_get "BPLName" members
         = Some (jopt_str (SerialNumberLookup.branch_name c0))
      /\ dict_get "CardCode" members = Some (JStr (requested_customer data)).
Proof.
  intros s sap user_id now data d sn0 rest c0 Hreq Hc0 o Hsub.
  destruct (create_invoice_submits_built s sap user_id now data d Hsub)
    as [items [p [b [Hg [Hb [Hcalls _]]]]]].
  rewrite Hreq in Hg.
  destruct (first_group_of_first_serial d sn0 rest c0 items Hc0 Hg)
    as [first_item [others [Hitems [Hbpl Hname]]]].
  unfold build_invoice in Hb.
  destruct (DT.add_one_day now) as [due|]; [|discriminate].
  rewrite Hitems in Hb.
  destruct (add_lines s (new_invoice_id s) ((group_key c0, first_item) :: others) 0
                      (mk_built [] [] [])) as [e|b']; [discriminate|].
  injection Hb as <- <-.
  eexists. split; [exact Hcalls|].
  simpl. rewrite Hbpl, Hname. auto.
Qed.

Lemma create_invoice_branch_of_first_serial_witness :
  exists members,
    out_calls (create_invoice Sample.server Sample.accepting 7 Sample.today
                 (InvoiceRequest.mk (Some "C001") (Some ["SN1"; "SN4"]))
                 Demo.two_branches)
    = [EnsureLoggedIn; Post "https://sap:50000/b1s/v1/Invoices" (JObj members) 60]
    /\ dict_get "BPLName" members = Some (JStr "Head Office").
Proof.
  destruct (create_invoice_branch_of_first_serial Sample.server Sample.accepting 7
              Sample.today (InvoiceRequest.mk (Some "C001") (Some ["SN1"; "SN4"]))
              Demo.two_branches "SN1" ["SN4"] Sample.row1 eq_refl eq_refl eq_refl)
    as [members [Hcalls [_ [Hname _]]]].
  exists members. split; [exact Hcalls|exact Hname].
Defined.

(** ** [create_invoice]: the line groups *)

(** X10 — The grouping loop of [create_invoice] is order-stable over the key
    it prints from item code and warehouse code: the groups stand in the order
    in which their keys are first seen among the serial numbers, no key
    occurs twice, and each group holds, in input order, exactly the serial
    numbers whose entry prints to its key. *)
Theorem groups_in_first_seen_order :
  forall (d : db) (serial_numbers : list string) (items : items_dict),
    group_serials d 0 serial_numbers [] = inr items ->
    map fst items = first_occ (keys_of d serial_numbers)
    /\ NoDup (map fst items)
    /\ forall k it, In (k, it) items ->
                    names it = filter (has_key d k) serial_numbers.
Proof.
  intros d serial_numbers items Hg.
  destruct (grouping_order_stable d serial_numbers items Hg) as [Hkeys Hnames].
  split; [exact Hkeys|]. split; [|exact Hnames].
  rewrite Hkeys. apply first_occ_nodup.
Qed.

Lemma groups_in_first_seen_order_witness :
  map fst Sample.groups = ["ITM-A_WH1"; "ITM-B_WH1"].
Proof.
  destruct (groups_in_first_seen_order Sample.store ["SN1"; "SN2"; "SN3"]
              Sample.groups eq_refl) as [Hkeys _].
  exact Hkeys.
Defined.

(** X11 — As long as no two different (item code, warehouse code) pairs
    among the entries of the serial numbers print to the same key, the line
    groups of [create_invoice] are billed under those pairs, one group per
    pair, in the order in which each pair is first seen. *)
Theorem groups_follow_faithful_pairs :
  forall (d : db) (serial_numbers : list string) (items : items_dict),
    group_serials d 0 serial_numbers [] = inr items ->
    keys_faithful (pairs_of d serial_numbers) ->
    map group_pair items = first_pairs (pairs_of d serial_numbers).
Proof. exact groups_follow_pairs. Qed.

Lemma groups_follow_faithful_pairs_witness :
  map group_pair Sample.groups
  = [(Some "ITM-A", Some "WH1"); (Some "ITM-B", Some "WH1")].
Proof.
  apply (groups_follow_faithful_pairs Sample.store ["SN1"; "SN2"; "SN3"] Sample.groups
           eq_refl).
  intros p q Hp Hq Hk. simpl in Hp, Hq.
  destruct Hp as [<-|[<-|[<-|[]]]]; destruct Hq as [<-|[<-|[<-|[]]]];
    try reflexivity; discriminate Hk.
Defined.

(** X12 — Every serial row that [create_invoice] stores, for every request,
    carries base line number 0 and quantity 1.0, whichever line it is
    attached to; so does every serial entry of the line groups. *)
Theorem create_invoice_serial_rows :
  forall (s : dbms) (sap : SAPIntegration) (user_id : Z) (now : datetime)
         (data : InvoiceRequest.t) (d : db),
    let o := create_invoice s sap user_id now data d in
    submitted sap (out_calls o) = true ->
    exists new_serials,
      serials (out_db o) = serials d ++ new_serials
      /\ forall row, In row new_serials ->
                     InvoiceSerialNumber.base_line_number row = 0
                     /\ InvoiceSerialNumber.quantity row = Py.one.
Proof.
  intros s sap user_id now data d o Hsub.
  destruct (create_invoice_submits_built s sap user_id now data d Hsub)
    as [items [p [b [Hg [Hb [_ [_ [Hs _]]]]]]]].
  destruct (build_invoice_rows s (new_invoice_id s) now (requested_customer data)
              items p b Hb) as [_ [Hserials _]].
  pose proof (group_serials_inv d 0 (requested_serials data) items Hg) as G.
  pose proof (g_entries _ _ _ _ G) as Hent. clear G Hg Hb.
  exists (new_serials b). split; [exact Hs|].
  rewrite Hserials. clear Hserials Hs.
  generalize 0 at 1 as n.
  induction items as [|[k it] rest IH]; intros n row Hin; simpl in Hin.
  - destruct Hin.
  - apply in_app_or in Hin. destruct Hin as [Hin|Hin].
    + apply in_map_iff in Hin. destruct Hin as [e [<- He]]. simpl.
      apply (Hent k it e); [now left|exact He].
    + apply (IH (fun k' it' e' H => Hent k' it' e' (or_intror H)) (S n) row Hin).
Qed.

Lemma create_invoice_serial_rows_witness :
  Forall (fun row => InvoiceSerialNumber.base_line_number row = 0)
         (serials Demo.invoiced).
Proof.
  destruct (create_invoice_serial_rows Sample.server Sample.accepting 7 Sample.today
              Sample.order Sample.store eq_refl) as [rows [Hs Hrows]].
  apply Forall_forall. intros row Hin. apply Hrows. unfold Demo.invoiced in Hin.
  rewrite Hs in Hin. exact Hin.
Defined.

(** X13 — Each line group of [create_invoice] is described by the entry of
    its first serial number: its item code, description and warehouse are
    that entry's item code, item name and warehouse code, later serial numbers
    of the group adding only to the quantity; the tax code of every group is
    CSGST@18. *)
Theorem groups_described_by_first_serial :
  forall (d : db) (serial_numbers : list string) (items : items_dict),
    group_serials d 0 serial_numbers [] = inr items ->
    forall k it,
      In (k, it) items ->
      exists sn c,
        hd_error (names it) = Some sn
        /\ In sn serial_numbers
        /\ first_lookup sn d = Some c
        /\ Item.ItemCode it = SerialNumberLookup.item_code c
        /\ Item.ItemDescription it = SerialNumberLookup.item_name c
        /\ Item.WarehouseCode it = SerialNumberLookup.warehouse_code c
        /\ Item.TaxCode it = "CSGST@18".
Proof.
  intros d serial_numbers items Hg k it Hin.
  pose proof (group_serials_inv d 0 serial_numbers items Hg) as G.
  destruct (g_first _ _ _ _ G k it Hin) as [sn [c [Hhd [Hc [_ [Hi [Hd [Hw [Ht _]]]]]]]]].
  exists sn, c. repeat split; auto.
  assert (Hsn : In sn (names it))
    by (destruct (names it); [discriminate|injection Hhd as ->; now left]).
  rewrite (g_names _ _ _ _ G k it Hin) in Hsn. apply filter_In in Hsn. apply Hsn.
Qed.

Lemma groups_described_by_first_serial_witness :
  exists sn c,
    hd_error ["SN1"; "SN2"] = Some sn
    /\ first_lookup sn Sample.store = Some c
    /\ SerialNumberLookup.item_name c = Some "Item A".
Proof.
  destruct (groups_described_by_first_serial Sample.store ["SN1"; "SN2"; "SN3"]
              Sample.groups eq_refl "ITM-A_WH1"
              (Item.mk (Some "ITM-A") (Some "Item A") (Some "WH1") "CSGST@18" 2
                       [SerialEntry.mk "SN1" 0 Py.one; SerialEntry.mk "SN2" 0 Py.one]
                       (Some 1%Z) (Some "Head Office"))
              (or_introl eq_refl))
    as [sn [c [Hhd [_ [Hc [_ [Hd _]]]]]]].
  exists sn, c. simpl in Hd. repeat split; auto.
Defined.

(** ** [validate_serial_number] *)

Lemma succeeded_failure (key msg : string) (code : Z) :
  succeeded (failure key msg code) = false.
Proof. reflexivity. Qed.

Section Validate.

Variables (sap : SAPIntegration) (arg : option string).

Lemma validate_accepted (item_data : list (string * json)) :
  Py.truthy (Py.strip (match arg with Some a => a | None => "" end)) = true ->
  sap_validates sap (Py.strip (match arg with Some a => a | None => "" end)) item_data ->
  validate_serial_number sap arg
  = (jsonify [("success", JBool true); ("item_data", validated_item item_data)],
     [EnsureLoggedIn;
      Post (sql_query_url sap)
           (param_list (Py.strip (match arg with Some a => a | None => "" end))) 30]).
Proof.
  intros Ht [Hlog [r [data [item [rest [Hpost [Hst [Hjson [Hval Hraw]]]]]]]]].
  unfold validate_serial_number. rewrite Ht, Hlog. simpl.
  rewrite Hpost, Hst. simpl. rewrite Hjson, Hval, Hraw. reflexivity.
Qed.

Lemma validate_accepts_only (v := validate_serial_number sap arg) :
  succeeded (fst v) = true ->
  Py.truthy (Py.strip (match arg with Some a => a | None => "" end)) = true
  /\ exists item_data,
      sap_validates sap (Py.strip (match arg with Some a => a | None => "" end)) item_data.
Proof.
  subst v. unfold validate_serial_number, sap_validates.
  destruct (Py.truthy _) eqn:Ht; simpl; [|discriminate].
  destruct (ensure_logged_in sap) eqn:Hlog; simpl; [|discriminate].
  destruct (post sap _ _ 30) as [e|r] eqn:Hpost; [discriminate|].
  destruct (status_code r =? 200)%Z eqn:Hst; [|discriminate].
  apply Z.eqb_eq in Hst.
  destruct (json_of r) as [e|data|t] eqn:Hjson; try discriminate.
  destruct (SapObject.value data) as [[|item rest]|] eqn:Hval; try discriminate.
  destruct (SapItem.raw item) as [| | | | | |members] eqn:Hraw; try discriminate.
  intros _. split; [reflexivity|].
  exists members. split; [reflexivity|]. exists r, data, item, rest. auto.
Qed.

Lemma validate_calls :
  snd (validate_serial_number sap arg)
  = (if negb (Py.truthy (Py.strip (match arg with Some a => a | None => "" end)))
     then []
     else if ensure_logged_in sap
          then [EnsureLoggedIn;
                Post (sql_query_url sap)
                     (param_list (Py.strip (match arg with Some a => a | None => "" end)))
                     30]
          else [EnsureLoggedIn]).
Proof.
  unfold validate_serial_number.
  destruct (Py.truthy _); simpl; [|reflexivity].
  destruct (ensure_logged_in sap); simpl; [|reflexivity].
  destruct (post sap _ _ 30) as [e|r]; [reflexivity|].
  destruct (status_code r =? 200)%Z; [|reflexivity].
  destruct (json_of r) as [e|data|t]; try reflexivity.
  destruct (SapObject.value data) as [[|item rest]|]; try reflexivity.
  destruct (SapItem.raw item); reflexivity.
Qed.

Lemma validate_unknown (r : response) (data : SapObject.t) :
  Py.truthy (Py.strip (match arg with Some a => a | None => "" end)) = true ->
  ensure_logged_in sap = true ->
  post sap (sql_query_url sap)
       (param_list (Py.strip (match arg with Some a => a | None => "" end))) 30
  = Returns r ->
  status_code r = 200%Z ->
  json_of r = JsonObject data ->
  SapObject.value data = None \/ SapObject.value data = Some [] ->
  fst (validate_serial_number sap arg)
  = jsonify [("success", JBool false);
             ("error", JStr "Serial number not found or has no available quantity")].
Proof.
  intros Ht Hlog Hpost Hst Hjson Hval.
  unfold validate_serial_number. rewrite Ht, Hlog. simpl.
  rewrite Hpost, Hst. simpl. rewrite Hjson.
  destruct Hval as [-> | ->]; reflexivity.
Qed.

End Validate.

(** X14 — [validate_serial_number] accepts a serial number exactly when it
    is not blank, the SAP login holds and the query answers 200 with an object
    whose first record is an object; the reply then carries the seven fields
    read from that first record alone, a missing field being the empty
    string.  It calls SAP at all only for a non-blank serial number, and
    posts the query only once the login holds; a serial number SAP does not
    know is answered with status 200 and success false. *)
Theorem validate_serial_number_accepts :
  forall (sap : SAPIntegration) (arg : option string),
    let sn := Py.strip (match arg with Some a => a | None => "" end) in
    let v := validate_serial_number sap arg in
    (succeeded (fst v) = true <->
     Py.truthy sn = true /\ exists item_data, sap_validates sap sn item_data)
    /\ (forall item_data,
           Py.truthy sn = true -> sap_validates sap sn item_data ->
           fst v = jsonify [("success", JBool true);
                            ("item_data", validated_item item_data)])
    /\ snd v = (if negb (Py.truthy sn) then []
                else if ensure_logged_in sap
                     then [EnsureLoggedIn; Post (sql_query_url sap) (param_list sn) 30]
                     else [EnsureLoggedIn])
    /\ (forall r data,
           Py.truthy sn = true -> ensure_logged_in sap = true ->
           post sap (sql_query_url sap) (param_list sn) 30 = Returns r ->
           status_code r = 200%Z -> json_of r = JsonObject data ->
           SapObject.value data = None \/ SapObject.value data = Some [] ->
           http_status (fst v) = 200%Z /\ succeeded (fst v) = false).
Proof.
  intros sap arg sn v. split; [split|split; [|split]].
  - apply validate_accepts_only.
  - intros [Ht [m Hm]]. subst v. rewrite (validate_accepted sap arg m Ht Hm). reflexivity.
  - intros m Ht Hm. subst v. rewrite (validate_accepted sap arg m Ht Hm). reflexivity.
  - apply validate_calls.
  - intros r data Ht Hlog Hpost Hst Hjson Hval. subst v.
    rewrite (validate_unknown sap arg r data Ht Hlog Hpost Hst Hjson Hval).
    split; reflexivity.
Qed.

Lemma validate_serial_number_accepts_witness :
  fst (validate_serial_number Sample.accepting (Some " SN5 "))
  = jsonify [("success", JBool true);
             ("item_data",
              JObj [("ItemCode", JStr "ITM-N"); ("ItemName", JStr "");
                    ("DistNumber", JStr "SN1"); ("WhsCode", JStr "WH9");
                    ("WhsName", JStr ""); ("BPLName", JStr ""); ("BPLid", JStr "")])].
Proof.
  destruct (validate_serial_number_accepts Sample.accepting (Some " SN5 "))
    as [_ [Hreply _]].
  apply (Hreply [("DistNumber", JStr "SN1"); ("ItemCode", JStr "ITM-N");
                 ("WhsCode", JStr "WH9")]); [reflexivity|].
  split; [reflexivity|].
  exists (Sample.found (Sample.item "SN1" "ITM-N" "WH9")),
    (SapObject.mk JNull (Some [Sample.item "SN1" "ITM-N" "WH9"]) None None
                  TotalAbsent None),
    (Sample.item "SN1" "ITM-N" "WH9"), [].
  repeat split; reflexivity.
Defined.

(** X15 — On a cache miss, [lookup_serial] and [validate_serial_number] put
    the same question to SAP (the same calls, with the same URL, parameter
    list and timeout) and, SAP's records being objects, agree on whether the
    serial number is accepted. *)
Theorem validate_agrees_with_lookup :
  forall (sap : SAPIntegration) (now now' : datetime) (arg : option string) (d : db),
    let data := mk_lookup_request arg in
    fresh_lookup now (first_lookup (requested data) d) = None ->
    records_are_objects sap (requested data) ->
    out_calls (lookup_serial sap now now' data d) = snd (validate_serial_number sap arg)
    /\ succeeded (out_reply (lookup_serial sap now now' data d))
       = succeeded (fst (validate_serial_number sap arg)).
Proof.
  intros sap now now' arg d data Hmiss Hobj.
  unfold lookup_serial, validate_serial_number.
  fold (requested data). change (req_serial_number data) with arg in *.
  unfold requested in *. simpl in *.
  set (sn := Py.strip (match arg with Some s => s | None => "" end)) in *.
  destruct (Py.truthy sn); simpl; [|auto].
  rewrite Hmiss.
  destruct (ensure_logged_in sap); simpl; [|auto].
  destruct (post sap (sql_query_url sap) (param_list sn) 30) as [e|r] eqn:Hpost; [auto|].
  destruct (status_code r =? 200)%Z; [|auto].
  destruct (json_of r) as [e|obj|t] eqn:Hjson; auto.
  destruct (SapObject.value obj) as [[|item rest]|] eqn:Hval; auto.
  destruct (Hobj r obj item rest Hpost Hjson Hval) as [members ->]. auto.
Qed.

Lemma sample_records_are_objects (sn : string) :
  records_are_objects Sample.accepting sn.
Proof.
  intros r data item rest Hpost Hjson Hval.
  unfold Sample.accepting, Sample.service in Hpost. simpl in Hpost.
  injection Hpost as <-. simpl in Hjson. injection Hjson as <-.
  simpl in Hval. injection Hval as <- _. eexists. reflexivity.
Qed.

Lemma validate_agrees_with_lookup_witness :
  out_calls (lookup_serial Sample.accepting Sample.t_elapsed Sample.t_later
                           (mk_lookup_request (Some "SN1")) Sample.store)
  = snd (validate_serial_number Sample.accepting (Some "SN1")).
Proof.
  apply (validate_agrees_with_lookup Sample.accepting Sample.t_elapsed Sample.t_later
           (Some "SN1") Sample.store eq_refl (sample_records_are_objects "SN1")).
Defined.

(** ** [get_business_partners] and [get_customers] *)

(** X16 — [get_business_partners] reports success exactly when the SAP
    login holds and the GET answers 200 with a JSON object, and then lists
    the records of the answer's 'value', all of them and in order (an empty
    list when the key is missing).  Every other outcome is a 500 with success
    false, and no GET is issued unless the login holds. *)
Theorem get_business_partners_outcomes :
  forall (sap : SAPSession),
    let v := get_business_partners sap in
    let headers := [("Prefer", "odata.pagemaxsize=0")] in
    (succeeded (fst v) = true <->
     exists data, sap_lists sap (business_partners_url sap) headers data)
    /\ (forall data,
           sap_lists sap (business_partners_url sap) headers data ->
           fst v = jsonify [("success", JBool true);
                            ("business_partners", value_list data)])
    /\ (succeeded (fst v) = false -> http_status (fst v) = 500%Z)
    /\ snd v = (if ensure_logged_in (integration sap)
                then [Login; Get (business_partners_url sap) headers 30]
                else [Login]).
Proof.
  intros sap v headers. subst v headers.
  unfold get_business_partners, sap_lists.
  destruct (ensure_logged_in (integration sap)); simpl.
  2:{ repeat split; try discriminate.
      - intros [data [H _]]. discriminate H.
      - intros data [H _]. discriminate H. }
  destruct (get sap _ _ 30) as [e|r] eqn:Hget.
  { repeat split; try discriminate.
    - intros [data [_ [r [H _]]]]. discriminate H.
    - intros data [_ [r [H _]]]. discriminate H. }
  destruct (status_code r =? 200)%Z eqn:Hst.
  2:{ apply Z.eqb_neq in Hst. repeat split; try discriminate.
      - intros [data [_ [r' [H [H' _]]]]]. injection H as <-. contradiction.
      - intros data [_ [r' [H [H' _]]]]. injection H as <-. contradiction. }
  apply Z.eqb_eq in Hst.
  destruct (json_of r) as [e|data|t] eqn:Hjson.
  - repeat split; try discriminate.
    + intros [data [_ [r' [H [_ H']]]]]. injection H as <-. congruence.
    + intros data [_ [r' [H [_ H']]]]. injection H as <-. congruence.
  - repeat split; try discriminate.
    + intros _. exists data. split; [reflexivity|]. exists r. auto.
    + intros data' [_ [r' [H [_ H']]]]. injection H as <-.
      assert (data' = data) by congruence. subst. reflexivity.
  - repeat split; try discriminate.
    + intros [data [_ [r' [H [_ H']]]]]. injection H as <-. congruence.
    + intros data [_ [r' [H [_ H']]]]. injection H as <-. congruence.
Qed.

Lemma get_business_partners_outcomes_witness :
  fst (get_business_partners Demo.session)
  = jsonify [("success", JBool true);
             ("business_partners",
              JArr [JObj [("CardCode", JStr "C001"); ("CardName", JStr "Acme")];
                    JObj [("CardCode", JStr "C002"); ("CardName", JStr "Globex")]])]
  /\ http_status (fst (get_business_partners Demo.refused)) = 500%Z.
Proof.
  destruct (get_business_partners_outcomes Demo.session) as [_ [Hlist _]].
  destruct (get_business_partners_outcomes Demo.refused) as [_ [_ [Hfail _]]].
  split.
  - apply (Hlist (SapObject.mk JNull (Some Demo.partners) None None TotalAbsent None)).
    split; [reflexivity|]. eexists. repeat split; reflexivity.
  - apply Hfail. reflexivity.
Defined.

(** X17 — [get_customers] reports success exactly when the SAP login holds
    and the GET answers 200 with a JSON object, and then lists the records of
    the answer's 'value' in order; every other outcome is a 500 with success
    false (a refusal quoting SAP's status code), and no GET is issued unless
    the login holds. *)
Theorem get_customers_outcomes :
  forall (sap : SAPSession),
    let v := get_customers sap in
    (succeeded (fst v) = true <-> exists data, sap_lists sap (customers_url sap) [] data)
    /\ (forall data,
           sap_lists sap (customers_url sap) [] data ->
           fst v = jsonify [("success", JBool true); ("customers", value_list data)])
    /\ (succeeded (fst v) = false -> http_status (fst v) = 500%Z)
    /\ (forall r,
           ensure_logged_in (integration sap) = true ->
           get sap (customers_url sap) [] 30 = Returns r ->
           status_code r <> 200%Z ->
           fst v = failure "message"
                     ("Failed to get customers: " ++ Py.str_int (status_code r)) 500)
    /\ snd v = (if ensure_logged_in (integration sap)
                then [Login; Get (customers_url sap) [] 30]
                else [Login]).
Proof.
  intros sap v. subst v. unfold get_customers, sap_lists.
  destruct (ensure_logged_in (integration sap)); simpl.
  2:{ repeat split; try discriminate.
      - intros [data [H _]]. discriminate H.
      - intros data [H _]. discriminate H. }
  destruct (get sap _ _ 30) as [e|r] eqn:Hget.
  { repeat split; try discriminate.
    - intros [data [_ [r [H _]]]]. discriminate H.
    - intros data [_ [r [H _]]]. discriminate H. }
  destruct (status_code r =? 200)%Z eqn:Hst.
  2:{ apply Z.eqb_neq in Hst. repeat split; try discriminate.
      - intros [data [_ [r' [H [H' _]]]]]. injection H as <-. contradiction.
      - intros data [_ [r' [H [H' _]]]]. injection H as <-. contradiction.
      - intros r' _ H _. injection H as <-. reflexivity. }
  apply Z.eqb_eq in Hst.
  destruct (json_of r) as [e|data|t] eqn:Hjson.
  - repeat split; try discriminate.
    + intros [data [_ [r' [H [_ H']]]]]. injection H as <-. congruence.
    + intros data [_ [r' [H [_ H']]]]. injection H as <-. congruence.
    + intros r' _ H Hne. injection H as <-. contradiction.
  - repeat split; try discriminate.
    + intros _. exists data. split; [reflexivity|]. exists r. auto.
    + intros data' [_ [r' [H [_ H']]]]. injection H as <-.
      assert (data' = data) by congruence. subst. reflexivity.
    + intros r' _ H Hne. injection H as <-. contradiction.
  - repeat split; try discriminate.
    + intros [data [_ [r' [H [_ H']]]]]. injection H as <-. congruence.
    + intros data [_ [r' [H [_ H']]]]. injection H as <-. congruence.
    + intros r' _ H Hne. injection H as <-. contradiction.
Qed.

Lemma get_customers_outcomes_witness :
  fst (get_customers Demo.refused)
  = failure "message" "Failed to get customers: 401" 500.
Proof.
  destruct (get_customers_outcomes Demo.refused) as [_ [_ [_ [Hrefused _]]]].
  apply (Hrefused (mk_response 401 "Unauthorized" (JsonRaises "Expecting value")));
    [reflexivity|reflexivity|discriminate].
Defined.

(** ** [detail] *)

Lemma get_invoice_id (invoice_id : Z) (d : db) (invoice : InvoiceDocument.row) :
  get_invoice invoice_id d = Some invoice -> InvoiceDocument.id invoice = invoice_id.
Proof.
  unfold get_invoice. intros H. apply find_some in H. destruct H as [_ H].
  now apply Z.eqb_eq in H.
Qed.

Lemma privileged_roles (role : option string) :
  privileged role = true <-> role = Some "admin" \/ role = Some "manager".
Proof.
  destruct role as [r|]; simpl.
  - rewrite !orb_true_iff, !String.eqb_eq. split.
    + intros [->|[->|H]]; [auto|auto|discriminate].
    + intros [H|H]; injection H as ->; auto.
  - split; [discriminate|intros [H|H]; discriminate].
Qed.

(** X18 — [detail] shows an invoice only to its owner, an admin or a
    manager: whenever the page is shown, the invoice is the stored one with
    the requested id and the viewer is its owner or has one of the two roles;
    the owner is never turned away, and anybody else is redirected with the
    access-denied message.  An id that is not stored gives a 404. *)
Theorem detail_access :
  forall (current_user_id : Z) (role : option string) (invoice_id : Z) (d : db),
    (forall template invoice,
        detail current_user_id role invoice_id d = Shown template invoice ->
        get_invoice invoice_id d = Some invoice
        /\ InvoiceDocument.id invoice = invoice_id
        /\ (InvoiceDocument.user_id invoice = current_user_id
            \/ role = Some "admin" \/ role = Some "manager"))
    /\ (forall invoice,
           get_invoice invoice_id d = Some invoice ->
           InvoiceDocument.user_id invoice = current_user_id ->
           detail current_user_id role invoice_id d
           = Shown "invoice_creation/detail.html" invoice)
    /\ (forall invoice,
           get_invoice invoice_id d = Some invoice ->
           InvoiceDocument.user_id invoice <> current_user_id ->
           role <> Some "admin" -> role <> Some "manager" ->
           detail current_user_id role invoice_id d
           = Denied (FlashRedirect "Access denied - You can only view your own invoices"
                                   "invoice_creation.index"))
    /\ (get_invoice invoice_id d = None ->
        detail current_user_id role invoice_id d = NotFound404).
Proof.
  intros current_user_id role invoice_id d. unfold detail.
  split; [|split; [|split]].
  - intros template invoice.
    destruct (get_invoice invoice_id d) as [found|] eqn:Hget; [|discriminate].
    destruct (Z.eqb_spec (InvoiceDocument.user_id found) current_user_id) as [Hown|Hother];
      simpl.
    + intros H. injection H as _ <-.
      split; [reflexivity|]. split; [now apply get_invoice_id with d|now left].
    + destruct (privileged role) eqn:Hrole; simpl; [|discriminate].
      intros H. injection H as _ <-.
      split; [reflexivity|]. split; [now apply get_invoice_id with d|].
      right. now apply privileged_roles.
  - intros invoice -> Hown. apply Z.eqb_eq in Hown. now rewrite Hown.
  - intros invoice -> Hother Hadmin Hmanager.
    apply Z.eqb_neq in Hother. rewrite Hother.
    destruct (privileged role) eqn:Hrole; [|reflexivity].
    apply privileged_roles in Hrole. destruct Hrole; contradiction.
  - intros ->. reflexivity.
Qed.

Lemma detail_access_witness :
  (exists invoice,
      detail 7 (Some "user") 1 Demo.invoiced = Shown "invoice_creation/detail.html" invoice)
  /\ detail 8 (Some "user") 1 Demo.invoiced
     = Denied (FlashRedirect "Access denied - You can only view your own invoices"
                             "invoice_creation.index")
  /\ detail 8 (Some "user") 5 Demo.invoiced = NotFound404.
Proof.
  destruct (detail_access 7 (Some "user") 1 Demo.invoiced) as [_ [Hown _]].
  destruct (detail_access 8 (Some "user") 1 Demo.invoiced) as [_ [_ [Hdenied _]]].
  destruct (detail_access 8 (Some "user") 5 Demo.invoiced) as [_ [_ [_ Hmissing]]].
  destruct (get_invoice 1 Demo.invoiced) as [invoice|] eqn:Hget;
    [|vm_compute in Hget; discriminate Hget].
  split; [|split].
  - exists invoice. apply Hown; [reflexivity|].
    vm_compute in Hget. injection Hget as <-. reflexivity.
  - apply (Hdenied invoice); [reflexivity| |discriminate|discriminate].
    vm_compute in Hget. injection Hget as <-. discriminate.
  - apply Hmissing. reflexivity.
Defined.

(** ** From [create_invoice] to [detail] *)





(** ** White space around the inputs *)





